(** * Data_Handler: retrieval pipelines over tabular data

    A shallow embedding of [src/data_handler.py] (class [Data_Handler]) and
    the properties its specification states about it.

    The Python code is a thin layer over pandas, requests and wbdata.  The
    tables it manipulates are embedded as explicit values (column labels,
    index labels, rows of cells), the library calls it makes as functions on
    those values, and the exceptions it can raise as an error type. *)

From Stdlib Require Import List String Ascii ZArith Bool Arith Lia Permutation.
Import ListNotations.

Local Open Scope string_scope.
Local Open Scope list_scope.
Local Open Scope nat_scope.

(* ================================================================== *)
(** * Python strings

    Strings are sequences of code points below 256 (the HDI file is decoded
    as ISO-8859-1, so every character of its header is one such code point).
    [isspace], [lower], [strip], [replace], [startswith], [rsplit] and [int]
    follow Python's [str] methods on that range. *)

Module PyStr.

(** [str.isspace] for one code point: U+0009..U+000D, U+001C..U+0020,
    U+0085 and U+00A0. *)
Definition isspace (c : ascii) : bool :=
  let n := nat_of_ascii c in
  ((9 <=? n) && (n <=? 13)) || ((28 <=? n) && (n <=? 32))
  || (n =? 133) || (n =? 160).

(** [str.lower] for one code point: A..Z and the upper-case letters of
    Latin-1 (U+00C0..U+00DE except the multiplication sign U+00D7). *)
Definition lower_char (c : ascii) : ascii :=
  let n := nat_of_ascii c in
  if ((65 <=? n) && (n <=? 90)) || ((192 <=? n) && (n <=? 214))
     || ((216 <=? n) && (n <=? 222))
  then ascii_of_nat (n + 32) else c.

Fixpoint smap (f : ascii -> ascii) (s : string) : string :=
  match s with
  | EmptyString => EmptyString
  | String c s' => String (f c) (smap f s')
  end.

Fixpoint sforall (p : ascii -> bool) (s : string) : bool :=
  match s with
  | EmptyString => true
  | String c s' => p c && sforall p s'
  end.

Definition lower (s : string) : string := smap lower_char s.

Fixpoint lstrip (s : string) : string :=
  match s with
  | EmptyString => EmptyString
  | String c s' => if isspace c then lstrip s' else s
  end.

Fixpoint rstrip (s : string) : string :=
  match s with
  | EmptyString => EmptyString
  | String c s' =>
      match rstrip s' with
      | EmptyString => if isspace c then EmptyString else String c EmptyString
      | r => String c r
      end
  end.

Definition strip (s : string) : string := rstrip (lstrip s).

(** [s.replace(' ', '_')]. *)
Definition space_to_underscore (c : ascii) : ascii :=
  if Ascii.eqb c " " then "_"%char else c.

Definition replace_spaces (s : string) : string := smap space_to_underscore s.

(** [s.startswith(p)]. *)
Definition startswith (s p : string) : bool := String.prefix p s.

(** [s.rsplit('_', 1)]: [None] stands for the one-element list [[s]] that
    Python returns when [s] has no underscore; otherwise the text before the
    last underscore and the text after it. *)
Fixpoint rsplit_underscore (s : string) : option (string * string) :=
  match s with
  | EmptyString => None
  | String c s' =>
      match rsplit_underscore s' with
      | Some (h, t) => Some (String c h, t)
      | None => if Ascii.eqb c "_" then Some (EmptyString, s') else None
      end
  end.

(** ** [int(s)]

    Python strips white space, reads an optional sign and then decimal
    digits; single underscores may separate digits. *)

Definition digit_of (c : ascii) : option Z :=
  let n := nat_of_ascii c in
  if (48 <=? n) && (n <=? 57) then Some (Z.of_nat (n - 48)) else None.

(** [digits acc after_digit s]: the value of the digit string [s] read after
    the digits already folded into [acc]; [after_digit] tells whether the
    previous character was a digit (an underscore is legal only there, and
    only when a digit follows). *)
Fixpoint digits (acc : Z) (after_digit : bool) (s : string) : option Z :=
  match s with
  | EmptyString => if after_digit then Some acc else None
  | String c s' =>
      match digit_of c with
      | Some d => digits (10 * acc + d) true s'
      | None =>
          if Ascii.eqb c "_" && after_digit
          then match s' with
               | EmptyString => None
               | String c' _ =>
                   match digit_of c' with
                   | Some _ => digits acc false s'
                   | None => None
                   end
               end
          else None
      end
  end.

Definition int (s : string) : option Z :=
  match strip s with
  | String "-" r => option_map Z.opp (digits 0 false r)
  | String "+" r => digits 0 false r
  | r => digits 0 false r
  end.

End PyStr.

(** A column label is normalised by [.str.strip().str.lower().str.replace(' ', '_')]. *)
Definition normalize_name (s : string) : string :=
  PyStr.replace_spaces (PyStr.lower (PyStr.strip s)).

(* ================================================================== *)
(** * Tables

    A pandas [DataFrame] is a list of column labels and a list of rows, each
    row carrying its index label next to its cells.  Cells hold what the
    pipelines read or write: a missing marker ([None], [NaN], [<NA>]), an
    integer or a text.  Other payloads (floating-point observations) are
    only moved around by this code, never inspected; they travel as text.

    Column labels are looked up by first occurrence; pandas returns a frame
    rather than a series for a repeated label, which no pipeline here is
    written for. *)

Inductive cell : Type :=
| NA
| Int (z : Z)
| Str (s : string).

Definition cell_eqb (a b : cell) : bool :=
  match a, b with
  | NA, NA => true
  | Int x, Int y => Z.eqb x y
  | Str x, Str y => String.eqb x y
  | _, _ => false
  end.

Record DataFrame : Type := mkDF {
  columns : list string;
  rows : list (nat * list cell)   (* index label, cells *)
}.

Definition index (df : DataFrame) : list nat := map fst (rows df).
Definition values (df : DataFrame) : list (list cell) := map snd (rows df).

(** The exceptions the pipelines can raise. *)
Inductive error : Type :=
| KeyError (label : string)
    (* a column label that the frame does not have *)
| InvalidLiteral (s : string)
    (* ValueError: invalid literal for int() with base 10 *)
| LengthMismatch
    (* ValueError: Columns must be same length as key *)
| TypeError
    (* int() of a value that is neither a number nor a text *)
| HTTPError (status : Z)
    (* requests.HTTPError from raise_for_status *)
| AttributeError.
    (* Can only use .str accessor with string values *)

Inductive result (A : Type) : Type :=
| Ok (a : A)
| Err (e : error).
Arguments Ok {A} a.
Arguments Err {A} e.

Definition bind {A B : Type} (r : result A) (k : A -> result B) : result B :=
  match r with
  | Ok a => k a
  | Err e => Err e
  end.

Notation "x <- r ;; k" := (bind r (fun x => k))
  (at level 61, r at next level, right associativity).

(** A Python [dict] with text keys, in insertion order. *)
Definition dict (V : Type) : Type := list (string * V).

Fixpoint dict_get {V : Type} (d : dict V) (k : string) : option V :=
  match d with
  | [] => None
  | (k', v) :: d' => if String.eqb k' k then Some v else dict_get d' k
  end.

Definition keys {V : Type} (d : dict V) : list string := map fst d.

(** [d[k] = v]: an existing key keeps its place. *)
Fixpoint dict_set {V : Type} (d : dict V) (k : string) (v : V) : dict V :=
  match d with
  | [] => [(k, v)]
  | (k', v') :: d' =>
      if String.eqb k' k then (k', v) :: d' else (k', v') :: dict_set d' k v
  end.

Definition mem (c : string) (l : list string) : bool :=
  existsb (String.eqb c) l.

Fixpoint position (c : string) (cols : list string) : option nat :=
  match cols with
  | [] => None
  | c' :: cols' =>
      if String.eqb c' c then Some 0 else option_map S (position c cols')
  end.

(** The cell of a row under a label. *)
Definition cell_at (cols : list string) (c : string) (r : list cell) : cell :=
  match position c cols with
  | Some i => nth i r NA
  | None => NA
  end.

(** A frame whose index is the default one, 0, 1, ..., n-1. *)
Definition range_indexed (cols : list string) (vals : list (list cell))
  : DataFrame :=
  mkDF cols (combine (seq 0 (List.length vals)) vals).

(** [df[c]] *)
Definition getitem (df : DataFrame) (c : string) : result (list cell) :=
  match position c (columns df) with
  | Some i => Ok (map (fun r => nth i (snd r) NA) (rows df))
  | None => Err (KeyError c)
  end.

(** [df[df[c] <test>]]: boolean indexing on one column; the rows kept carry
    their index labels along. *)
Definition where_col (df : DataFrame) (c : string) (test : cell -> bool)
  : result DataFrame :=
  match position c (columns df) with
  | Some i =>
      Ok (mkDF (columns df)
               (filter (fun r => test (nth i (snd r) NA)) (rows df)))
  | None => Err (KeyError c)
  end.

Fixpoint update_nth {A : Type} (i : nat) (f : A -> A) (l : list A) : list A :=
  match l, i with
  | [], _ => []
  | x :: l', 0 => f x :: l'
  | x :: l', S i' => x :: update_nth i' f l'
  end.

(** [df[c] = f(df[c])], cell by cell. *)
Definition map_col (df : DataFrame) (c : string) (f : cell -> cell)
  : result DataFrame :=
  match position c (columns df) with
  | Some i =>
      Ok (mkDF (columns df)
               (map (fun r => (fst r, update_nth i f (snd r))) (rows df)))
  | None => Err (KeyError c)
  end.

Fixpoint first_missing (cs cols : list string) : option string :=
  match cs with
  | [] => None
  | c :: cs' => if mem c cols then first_missing cs' cols else Some c
  end.

(** [df[cs]] for a list of labels. *)
Definition select (df : DataFrame) (cs : list string) : result DataFrame :=
  match first_missing cs (columns df) with
  | Some c => Err (KeyError c)
  | None =>
      Ok (mkDF cs
               (map (fun r => (fst r, map (fun c => cell_at (columns df) c (snd r)) cs))
                    (rows df)))
  end.

(** [df.rename(columns=m)] *)
Definition rename (df : DataFrame) (m : dict string) : DataFrame :=
  mkDF (map (fun c => match dict_get m c with Some d => d | None => c end)
            (columns df))
       (rows df).

(** [df.reset_index(drop=True)] *)
Definition reset_index (df : DataFrame) : DataFrame :=
  range_indexed (columns df) (values df).

(** [df.columns = df.columns.str.strip().str.lower().str.replace(' ', '_')] *)
Definition normalize_columns (df : DataFrame) : DataFrame :=
  mkDF (map normalize_name (columns df)) (rows df).

(** The index is the dense sequence 0, 1, ..., n-1. *)
Definition dense_index (df : DataFrame) : Prop :=
  index df = seq 0 (List.length (rows df)).

(** ** Filter primitives *)

(** [series >= bound] and [series <= bound] on a year column; a missing year
    compares as missing, which boolean indexing reads as false. *)
Definition year_ge (bound : Z) (c : cell) : bool :=
  match c with
  | Int y => Z.leb bound y
  | _ => false
  end.

Definition year_le (bound : Z) (c : cell) : bool :=
  match c with
  | Int y => Z.leb y bound
  | _ => false
  end.

(** [series.isin(values)] for text values. *)
Definition isin (vals : list string) (c : cell) : bool :=
  match c with
  | Str s => mem s vals
  | _ => false
  end.

(** [series.str.lower().isin(values)] *)
Definition lower_isin (vals : list string) (c : cell) : bool :=
  match c with
  | Str s => mem (PyStr.lower s) vals
  | _ => false
  end.

(** [series.str.lower() == name.lower()] *)
Definition lower_eq (name : string) (c : cell) : bool :=
  match c with
  | Str s => String.eqb (PyStr.lower s) (PyStr.lower name)
  | _ => false
  end.

(** ** Arguments of the public functions *)

(** A country argument: one text or a list of texts. *)
Inductive str_or_list : Type :=
| One (s : string)
| Many (l : list string).

Definition as_list (v : str_or_list) : list string :=
  match v with
  | One s => [s]
  | Many l => l
  end.

(** Python truth values: [if x:] *)
Definition truthy_int (z : Z) : bool := negb (Z.eqb z 0).
Definition truthy_str (s : string) : bool := negb (String.eqb s "").
Definition truthy_sl (v : str_or_list) : bool :=
  match v with
  | One s => truthy_str s
  | Many l => negb (Nat.eqb (List.length l) 0)
  end.

(** The [indicators] argument of [get_data_IDMC] and [get_data_GIDD]:
    [None], the text ["all"], or a mapping from column label to display name. *)
Inductive indicator_spec : Type :=
| IndNone
| IndAll
| IndMap (m : dict string).

(** A filter guarded by [if arg:]: skipped when the argument is [None] or
    has a false truth value. *)
Definition if_truthy {A : Type} (arg : option A) (truthy : A -> bool)
  (df : DataFrame) (f : A -> result DataFrame) : result DataFrame :=
  match arg with
  | Some v => if truthy v then f v else Ok df
  | None => Ok df
  end.

(** A filter guarded by [if arg is not None:]. *)
Definition if_not_None {A : Type} (arg : option A)
  (df : DataFrame) (f : A -> result DataFrame) : result DataFrame :=
  match arg with
  | Some v => f v
  | None => Ok df
  end.

(* ================================================================== *)
(** * GIDD records and pages *)

(** A JSON object of the [results] array: its keys in document order. *)
Definition record : Type := dict cell.

Fixpoint add_new (seen ks : list string) : list string :=
  match ks with
  | [] => seen
  | k :: ks' => add_new (if mem k seen then seen else seen ++ [k]) ks'
  end.

(** [pd.DataFrame(records)]: the columns are the keys met, in order of first
    appearance; a record without a key has a missing value there. *)
Definition frame_of_records (records : list record) : DataFrame :=
  let cols := fold_left (fun seen r => add_new seen (keys r)) records [] in
  range_indexed cols
    (map (fun r => map (fun c => match dict_get r c with
                                 | Some v => v
                                 | None => NA
                                 end) cols)
         records).

(** A response of the API: its HTTP status and the decoded body.  In the
    body, [results] is [None] when the key is absent and [next] is [None]
    when the key is absent or null. *)
Record page : Type := mkPage {
  results : option (list record);
  next : option string
}.

Record response : Type := mkResponse {
  status : Z;
  json : page
}.

(** A call [requests.get(url, params=params)]. *)
Record request : Type := mkRequest {
  url : string;
  params : dict cell
}.

(** [r.raise_for_status()] raises for a 4xx or 5xx status. *)
Definition is_http_error (code : Z) : bool :=
  (Z.leb 400 code && Z.ltb code 600)%bool.

Definition gidd_url : string :=
  "https://helix-tools-api.idmcdb.org/external-api/gidd/disasters/".

(** The [while True] loop of [get_data_GIDD].  The server is a script of
    responses, one per request, in the order they are sent; the loop runs
    by recursion on that script.  The result is [None] when the script is
    exhausted while the loop still asks for a page (the Python loop has no
    bound of its own); otherwise it is the requests sent, in order, and the
    records gathered or the exception raised. *)
Fixpoint fetch_loop (script : list response) (base_url : string)
  (params : dict cell) (all_records : list record) (sent : list request)
  : option (list request * result (list record)) :=
  match script with
  | [] => None
  | r :: script' =>
      let sent' := sent ++ [mkRequest base_url params] in
      if is_http_error (status r) then Some (sent', Err (HTTPError (status r)))
      else
        let js := json r in
        let all_records' :=
          all_records ++ match results js with Some l => l | None => [] end in
        match next js with
        | Some u =>
            if truthy_str u then fetch_loop script' u [] all_records' sent'
            else Some (sent', Ok all_records')
        | None => Some (sent', Ok all_records')
        end
  end.

Definition fetch_all_records (script : list response) (client_id : string)
  (limit : Z) : option (list request * result (list record)) :=
  fetch_loop script gidd_url
             [("client_id", Str client_id); ("limit", Int limit)] [] [].

(* ================================================================== *)
(** * The IDMC and GIDD pipelines *)

Section Coercion.

(** [pd.to_numeric] on a text: the integer it denotes, if any.  The
    pipelines only rely on it returning a number or failing. *)
Variable to_numeric : string -> option Z.

(** [pd.to_numeric(series, errors="coerce").astype("Int64")], cell by cell. *)
Definition to_Int64 (c : cell) : cell :=
  match c with
  | NA => NA
  | Int z => Int z
  | Str s => match to_numeric s with Some z => Int z | None => NA end
  end.

Definition idmc_base_cols : list string := ["iso3"; "start_date"; "year"].

(** [get_data_IDMC]; [raw] is the frame [pd.read_csv(filepath)] returns. *)
Definition get_data_IDMC (raw : DataFrame) (indicators : indicator_spec)
  (iso3 : option str_or_list) (start_year end_year : option Z)
  (hazard_category_name hazard_type_name : option string)
  : result DataFrame :=
  let df := normalize_columns raw in
  df <- map_col df "year" to_Int64 ;;
  df <- if_truthy iso3 truthy_sl df
          (fun v => where_col df "iso3" (isin (as_list v))) ;;
  df <- if_truthy start_year truthy_int df
          (fun y => where_col df "year" (year_ge y)) ;;
  df <- if_truthy end_year truthy_int df
          (fun y => where_col df "year" (year_le y)) ;;
  df <- if_truthy hazard_category_name truthy_str df
          (fun h => where_col df "hazard_category_name" (lower_eq h)) ;;
  df <- if_truthy hazard_type_name truthy_str df
          (fun h => where_col df "hazard_type_name" (lower_eq h)) ;;
  match indicators with
  | IndNone | IndAll =>
      let cols := idmc_base_cols
                  ++ filter (fun c => negb (mem c idmc_base_cols)) (columns df) in
      df <- select df cols ;;
      Ok (reset_index df)
  | IndMap m =>
      df <- select df (idmc_base_cols ++ keys m) ;;
      Ok (reset_index (rename df m))
  end.

Definition gidd_base_cols : list string := ["iso3"; "year"; "start_date"].

(** What [pd.DataFrame([])] has for [columns]: an empty [RangeIndex] from
    pandas 2.0 on ([range_columns] is [true]), an empty [Index] of objects
    before ([false]).  The repository asks for no version of pandas. *)
Variable range_columns : bool.

(** Whether the [columns] of [pd.DataFrame(records)] are that
    [RangeIndex]: only a list without any record gives it; with a record,
    the keys met make an [Index] of texts, be it empty. *)
Definition range_labelled (records : list record) : bool :=
  match records with
  | [] => range_columns
  | _ :: _ => false
  end.

(** [iso3 in (None, "all")] for a value that is not [None]. *)
Definition is_all (v : str_or_list) : bool :=
  match v with
  | One s => String.eqb s "all"
  | Many _ => false
  end.

(** [get_data_GIDD] after the fetch loop: from [pd.DataFrame(all_records)]
    to the returned frame.  The [.str] accessor that normalises the labels
    raises AttributeError on a [RangeIndex]; on an [Index] of texts or an
    empty [Index] of objects it maps the labels.  The year bounds are
    integers, as the comparison with the [Int64] year column needs. *)
Definition gidd_table (all_records : list record)
  (iso3 : option str_or_list) (start_year end_year : option Z)
  (hazard_category_name hazard_type_name : option string)
  (indicators : indicator_spec) : result DataFrame :=
  let df := frame_of_records all_records in
  df <- (if range_labelled all_records then Err AttributeError
         else Ok (normalize_columns df)) ;;
  df <- map_col df "year" to_Int64 ;;
  df <- match iso3 with
        | None => Ok df
        | Some v =>
            if is_all v then Ok df
            else where_col df "iso3" (isin (map PyStr.strip (as_list v)))
        end ;;
  df <- if_truthy start_year truthy_int df
          (fun y => where_col df "year" (year_ge y)) ;;
  df <- if_truthy end_year truthy_int df
          (fun y => where_col df "year" (year_le y)) ;;
  df <- if_truthy hazard_category_name truthy_str df
          (fun h => where_col df "hazard_category_name" (lower_eq h)) ;;
  df <- if_truthy hazard_type_name truthy_str df
          (fun h => where_col df "hazard_type_name" (lower_eq h)) ;;
  match indicators with
  | IndNone | IndAll => Ok (reset_index df)
  | IndMap m =>
      df <- select df (gidd_base_cols ++ keys m) ;;
      Ok (reset_index df)
  end.

(** [get_data_GIDD]: the requests sent and the frame returned or the
    exception raised; [None] when the fetch loop does not end. *)
Definition get_data_GIDD (script : list response) (client_id : string)
  (limit : Z) (iso3 : option str_or_list) (start_year end_year : option Z)
  (hazard_category_name hazard_type_name : option string)
  (indicators : indicator_spec)
  : option (list request * result DataFrame) :=
  match fetch_all_records script client_id limit with
  | None => None
  | Some (sent, Err e) => Some (sent, Err e)
  | Some (sent, Ok all_records) =>
      Some (sent, gidd_table all_records iso3 start_year end_year
                             hazard_category_name hazard_type_name indicators)
  end.

End Coercion.

(* ================================================================== *)
(** * The HDI pipeline *)

(** [df[c] = f(row)]: a column computed row by row from the other columns;
    an existing column is overwritten in place, a new one is appended. *)
Definition with_col (df : DataFrame) (c : string) (f : list cell -> cell)
  : DataFrame :=
  match position c (columns df) with
  | Some i =>
      mkDF (columns df)
           (map (fun r => (fst r, update_nth i (fun _ => f (snd r)) (snd r)))
                (rows df))
  | None =>
      mkDF (columns df ++ [c])
           (map (fun r => (fst r, snd r ++ [f (snd r)])) (rows df))
  end.

(** The first exception met, in list order, or all the values. *)
Fixpoint collect {A B : Type} (f : A -> result B) (l : list A)
  : result (list B) :=
  match l with
  | [] => Ok []
  | x :: l' => y <- f x ;; ys <- collect f l' ;; Ok (y :: ys)
  end.

(** [df[c] = series.astype(...)]: a conversion that raises at the first
    row it cannot convert. *)
Definition convert_col (df : DataFrame) (c : string) (f : cell -> result cell)
  : result DataFrame :=
  match position c (columns df) with
  | Some i =>
      rs <- collect (fun r => v <- f (nth i (snd r) NA) ;;
                              Ok (fst r, update_nth i (fun _ => v) (snd r)))
                    (rows df) ;;
      Ok (mkDF (columns df) rs)
  | None => Err (KeyError c)
  end.

Fixpoint remove_nth {A : Type} (i : nat) (l : list A) : list A :=
  match l, i with
  | [], _ => []
  | _ :: l', 0 => l'
  | x :: l', S i' => x :: remove_nth i' l'
  end.

(** [df.drop(columns=c, inplace=True)] *)
Definition drop (df : DataFrame) (c : string) : result DataFrame :=
  match position c (columns df) with
  | Some i =>
      Ok (mkDF (remove_nth i (columns df))
               (map (fun r => (fst r, remove_nth i (snd r))) (rows df)))
  | None => Err (KeyError c)
  end.

(** [df.melt(id_vars, value_vars, var_name, value_name)]: for each value
    column in turn, one row per row of [df], holding the identity cells, the
    label of the value column and the cell under it; the index is new. *)
Definition melt (df : DataFrame) (id_vars value_vars : list string)
  (var_name value_name : string) : result DataFrame :=
  match first_missing (id_vars ++ value_vars) (columns df) with
  | Some c => Err (KeyError c)
  | None =>
      let long :=
        flat_map
          (fun v =>
             map (fun r => map (fun c => cell_at (columns df) c r) id_vars
                           ++ [Str v; cell_at (columns df) v r])
                 (values df))
          value_vars in
      Ok (range_indexed (id_vars ++ [var_name; value_name]) long)
  end.

(** [series.str.rsplit('_', n=1, expand=True)]: the two parts of a cell; a
    text without underscore has one part, a cell that is not a text none. *)
Definition rsplit_parts (c : cell) : list cell :=
  match c with
  | Str s =>
      match PyStr.rsplit_underscore s with
      | Some (h, t) => [Str h; Str t]
      | None => [Str s]
      end
  | _ => []
  end.

(** The number of columns of the expanded frame: the longest list of parts
    (none for an empty series). *)
Definition expand_width (series : list cell) : nat :=
  fold_right Nat.max 0 (map (fun c => List.length (rsplit_parts c)) series).

(** [int(x)] on a cell of an object column. *)
Definition astype_int (c : cell) : result cell :=
  match c with
  | Int z => Ok (Int z)
  | Str s =>
      match PyStr.int s with
      | Some z => Ok (Int z)
      | None => Err (InvalidLiteral s)
      end
  | NA => Err TypeError
  end.

(** [series.map(indicators)]: a missing value where the key is unknown. *)
Definition map_dict (d : dict string) (c : cell) : cell :=
  match c with
  | Str s => match dict_get d s with Some v => Str v | None => NA end
  | _ => NA
  end.

Definition hdi_id_vars : list string := ["iso3"; "country"; "region"].

(** The columns that match an indicator prefix, in column order. *)
Definition value_vars_of (cols : list string) (indicators : dict string)
  : list string :=
  filter (fun col =>
            existsb (fun prefix => PyStr.startswith col (prefix ++ "_"))
                    (keys indicators))
         cols.

Definition reshape_long_HDI (df : DataFrame) (indicators : dict string)
  : result DataFrame :=
  let id_vars := hdi_id_vars in
  let value_vars := value_vars_of (columns df) indicators in
  long_df <- melt df id_vars value_vars "metric_year" "value" ;;
  (* long_df[['metric', 'year']] = long_df['metric_year'].str.rsplit(...) *)
  metric_year <- getitem long_df "metric_year" ;;
  if negb (Nat.eqb (expand_width metric_year) 2) then Err LengthMismatch
  else
    let cols := columns long_df in
    let long_df :=
      with_col long_df "metric"
        (fun r => nth 0 (rsplit_parts (cell_at cols "metric_year" r)) NA) in
    let long_df :=
      with_col long_df "year"
        (fun r => nth 1 (rsplit_parts (cell_at cols "metric_year" r)) NA) in
    long_df <- convert_col long_df "year" astype_int ;;
    long_df <- drop long_df "metric_year" ;;
    let cols := columns long_df in
    Ok (with_col long_df "metric_name"
          (fun r => map_dict indicators (cell_at cols "metric" r))).

(** [get_data_HDI]; [raw] is the frame [pd.read_csv(filepath, ...)] returns. *)
Definition get_data_HDI (raw : DataFrame) (indicators : dict string)
  (countries : option str_or_list) (start_year end_year : option Z)
  : result DataFrame :=
  let df := normalize_columns raw in
  long_df <- reshape_long_HDI df indicators ;;
  long_df <- if_not_None countries long_df
               (fun v => where_col long_df "country"
                           (lower_isin (map PyStr.lower (as_list v)))) ;;
  long_df <- if_not_None start_year long_df
               (fun y => where_col long_df "year" (year_ge y)) ;;
  long_df <- if_not_None end_year long_df
               (fun y => where_col long_df "year" (year_le y)) ;;
  Ok (reset_index long_df).

(* ================================================================== *)
(** * The World Bank pipeline *)

(** A record of [wbdata.get_data]: the fields the loop reads.  [value] and
    [countryiso3code] are [None] when the key is absent. *)
Record wb_record : Type := mkWB {
  date : string;
  value : option cell;
  country_value : string;
  country_id : string;
  countryiso3code : option string
}.

Definition wb_keys : list string := ["Country"; "ISO3"; "Year"].

(** The body of the inner loop: the row appended for one record. *)
Definition wb_row (name : string) (rec : wb_record) : result record :=
  match PyStr.int (date rec) with
  | None => Err (InvalidLiteral (date rec))
  | Some year =>
      let value := match value rec with Some v => v | None => NA end in
      let country_name := country_value rec in
      let country_iso3 :=
        match countryiso3code rec with
        | Some c => c
        | None => country_id rec
        end in
      Ok (dict_set
            (dict_set
               (dict_set
                  (dict_set [] "Country" (Str country_name))
                  "ISO3" (Str country_iso3))
               "Year" (Int year))
            name value)
  end.

(** ** [pd.merge(left, right, on=..., how='outer')] *)

(** An order on cells for sorting join keys: numbers by value, texts by
    code point, missing values last. *)
Definition cell_leb (a b : cell) : bool :=
  match a, b with
  | Int x, Int y => Z.leb x y
  | Int _, _ => true
  | Str _, Int _ => false
  | Str x, Str y => String.leb x y
  | Str _, NA => true
  | NA, NA => true
  | NA, _ => false
  end.

Fixpoint key_leb (k1 k2 : list cell) : bool :=
  match k1, k2 with
  | [], _ => true
  | _ :: _, [] => false
  | a :: k1', b :: k2' =>
      if cell_eqb a b then key_leb k1' k2' else cell_leb a b
  end.

Fixpoint key_eqb (k1 k2 : list cell) : bool :=
  match k1, k2 with
  | [], [] => true
  | a :: k1', b :: k2' => cell_eqb a b && key_eqb k1' k2'
  | _, _ => false
  end.

Section SortByKey.

Context {A : Type}.
Variable key : A -> list cell.

Fixpoint insert_by_key (x : A) (l : list A) : list A :=
  match l with
  | [] => [x]
  | y :: l' =>
      if key_leb (key y) (key x) then y :: insert_by_key x l' else x :: l
  end.

(** A stable sort on the join key. *)
Definition sort_by_key (l : list A) : list A :=
  fold_right insert_by_key [] (rev l).

End SortByKey.

(** The cells of a row under the labels that are not join keys. *)
Definition other_cells (cols on : list string) (r : list cell) : list cell :=
  map snd (filter (fun cv => negb (mem (fst cv) on)) (combine cols r)).

Definition other_cols (cols on : list string) : list string :=
  filter (fun c => negb (mem c on)) cols.

Definition key_cells (cols on : list string) (r : list cell) : list cell :=
  map (fun c => cell_at cols c r) on.

Definition merge_outer (left right : DataFrame) (on : list string)
  : result DataFrame :=
  match first_missing on (columns right), first_missing on (columns left) with
  | Some c, _ => Err (KeyError c)
  | None, Some c => Err (KeyError c)
  | None, None =>
      let lcols := columns left in
      let rcols := columns right in
      let lother := other_cols lcols on in
      let rother := other_cols rcols on in
      (* a label on both sides, outside the keys, gets the suffixes _x, _y *)
      let lcols' :=
        map (fun c => if negb (mem c on) && mem c rother then (c ++ "_x")%string else c)
            lcols in
      let rother' :=
        map (fun c => if mem c lother then (c ++ "_y")%string else c) rother in
      let lkey := key_cells lcols on in
      let rkey := key_cells rcols on in
      let matched :=
        flat_map
          (fun l =>
             match filter (fun r => key_eqb (rkey r) (lkey l)) (values right) with
             | [] => [l ++ map (fun _ => NA) rother]
             | ms => map (fun r => l ++ other_cells rcols on r) ms
             end)
          (values left) in
      let right_only :=
        map (fun r =>
               map (fun c => if mem c on then cell_at rcols c r else NA) lcols
               ++ other_cells rcols on r)
            (filter (fun r => negb (existsb (fun l => key_eqb (rkey r) (lkey l))
                                            (values left)))
                    (values right)) in
      let out := sort_by_key (key_cells lcols' on) (matched ++ right_only) in
      Ok (range_indexed (lcols' ++ rother') out)
  end.

(** [reduce(lambda left, right: pd.merge(...), all_data)] for a list that is
    not empty. *)
Definition merge_all (first : DataFrame) (others : list DataFrame)
  : result DataFrame :=
  fold_left (fun acc right => left <- acc ;; merge_outer left right wb_keys)
            others (Ok first).

(** [get_data_WB]; [wbdata_get_data code countries] is what
    [wbdata.get_data(indicator=code, country=countries)] returns. *)
Definition get_data_WB
  (wbdata_get_data : string -> str_or_list -> list wb_record)
  (indicators : dict string) (countries : str_or_list)
  (start_year end_year : option Z) : result DataFrame :=
  all_data <-
    collect (fun kv =>
               let raw_data := wbdata_get_data (fst kv) countries in
               rows <- collect (wb_row (snd kv)) raw_data ;;
               Ok (frame_of_records rows))
            indicators ;;
  df <- match all_data with
        | d :: ds => merge_all d ds
        | [] => Ok (mkDF (wb_keys ++ map snd indicators) [])
        end ;;
  df <- if_not_None start_year df (fun y => where_col df "Year" (year_ge y)) ;;
  df <- if_not_None end_year df (fun y => where_col df "Year" (year_le y)) ;;
  let cols := wb_keys ++ map snd indicators in
  df <- select df (filter (fun c => mem c (columns df)) cols) ;;
  Ok df.

(* ================================================================== *)
(** * Vocabulary of the specification *)

(** ** Normalised tables

    The invariant of a normalised table: every column label is lower case,
    has no white space at either end, and contains no space. *)

Definition starts_clean (s : string) : bool :=
  match s with
  | EmptyString => true
  | String c _ => negb (PyStr.isspace c)
  end.

Fixpoint ends_clean (s : string) : bool :=
  match s with
  | EmptyString => true
  | String c s' =>
      match s' with
      | EmptyString => negb (PyStr.isspace c)
      | String _ _ => ends_clean s'
      end
  end.

Definition lower_no_space (c : ascii) : bool :=
  Ascii.eqb (PyStr.lower_char c) c && negb (Ascii.eqb c " ").

Definition is_normalized_name (s : string) : bool :=
  starts_clean s && ends_clean s && PyStr.sforall lower_no_space s.

Definition normalized_table (df : DataFrame) : bool :=
  forallb is_normalized_name (columns df).

(** ** Pages followed by the fetch loop *)

(** The page names a next page: [js.get("next")] is true. *)
Definition has_next (r : response) : bool :=
  match next (json r) with
  | Some u => truthy_str u
  | None => false
  end.

Definition next_url (r : response) : string :=
  match next (json r) with
  | Some u => u
  | None => EmptyString
  end.

Definition page_results (r : response) : list record :=
  match results (json r) with
  | Some l => l
  | None => []
  end.

Definition status_ok (r : response) : bool := negb (is_http_error (status r)).

(** ** Columns named by a call

    The source columns that the filter criteria and the indicator keys of a
    call refer to.  [named_if arg active c] is [[c]] when the criterion
    [arg] is given and active. *)

Definition named_if {A : Type} (arg : option A) (active : A -> bool)
  (c : string) : list string :=
  match arg with
  | Some v => if active v then [c] else []
  | None => []
  end.

Definition given {A : Type} (_ : A) : bool := true.

Definition indicator_keys (indicators : indicator_spec) : list string :=
  match indicators with
  | IndMap m => keys m
  | _ => []
  end.


(** A hazard name counts when it is not the empty text. *)
Definition idmc_named_columns (indicators : indicator_spec)
  (iso3 : option str_or_list) (start_year end_year : option Z)
  (hazard_category_name hazard_type_name : option string) : list string :=
  named_if iso3 given "iso3"
  ++ named_if start_year given "year"
  ++ named_if end_year given "year"
  ++ named_if hazard_category_name truthy_str "hazard_category_name"
  ++ named_if hazard_type_name truthy_str "hazard_type_name"
  ++ indicator_keys indicators.


(** ** Outcomes of a call about a missing column *)



(** ** Long-format observations *)

(** The text after the last underscore of a column label, and the text
    before it. *)
Definition year_suffix (col : string) : string :=
  match PyStr.rsplit_underscore col with
  | Some (_, t) => t
  | None => col
  end.

Definition metric_of (col : string) : string :=
  match PyStr.rsplit_underscore col with
  | Some (h, _) => h
  | None => col
  end.

Definition year_cell (col : string) : cell :=
  match PyStr.int (year_suffix col) with
  | Some z => Int z
  | None => NA
  end.

(** The observation for a row [r] of the wide table and a value column
    [v]: identity, value, metric, year and display name. *)
Definition observation (cols : list string) (indicators : dict string)
  (v : string) (r : list cell) : list cell :=
  [cell_at cols "iso3" r; cell_at cols "country" r; cell_at cols "region" r;
   cell_at cols v r; Str (metric_of v); year_cell v;
   map_dict indicators (Str (metric_of v))].

Definition long_columns : list string :=
  ["iso3"; "country"; "region"; "value"; "metric"; "year"; "metric_name"].

(** Column after column, and inside a column row after row. *)
Definition column_major (df : DataFrame) (indicators : dict string)
  : list (list cell) :=
  flat_map (fun v => map (observation (columns df) indicators v) (values df))
           (value_vars_of (columns df) indicators).





(** The rows that [melt] produces, over the pairs (value column, row). *)
Definition melted (cols : list string) (p : string * list cell) : list cell :=
  [cell_at cols "iso3" (snd p); cell_at cols "country" (snd p);
   cell_at cols "region" (snd p); Str (fst p); cell_at cols (fst p) (snd p)].

(** The row of the long table that the steps after [melt] make of a melted
    row, or the exception that the year conversion raises on it. *)
Definition finish_row (indicators : dict string) (x : list cell)
  : result (list cell) :=
  match x with
  | [a; b; c; Str v; val] =>
      match PyStr.int (year_suffix v) with
      | Some z => Ok [a; b; c; val; Str (metric_of v); Int z;
                      map_dict indicators (Str (metric_of v))]
      | None => Err (InvalidLiteral (year_suffix v))
      end
  | _ => Err TypeError
  end.

(** The row before [metric_year] is dropped: the melted row, the metric and
    the year as an integer. *)
Definition row_before_drop (x : list cell) : result (list cell) :=
  let parts := rsplit_parts (nth 3 x NA) in
  v <- astype_int (nth 1 parts NA) ;;
  Ok (x ++ [nth 0 parts NA; v]).

Definition after_drop (indicators : dict string) (y : list cell) : list cell :=
  let r := remove_nth 3 y in r ++ [map_dict indicators (nth 4 r NA)].

(** ** Country-years of the World Bank records *)

Definition wb_iso3 (rec : wb_record) : string :=
  match countryiso3code rec with
  | Some c => c
  | None => country_id rec
  end.

(** The country-year of a record: the cells of its row under
    (Country, ISO3, Year). *)
Definition wb_key (rec : wb_record) : list cell :=
  [Str (country_value rec); Str (wb_iso3 rec);
   match PyStr.int (date rec) with Some y => Int y | None => NA end].

Definition wb_value (rec : wb_record) : cell :=
  match value rec with
  | Some v => v
  | None => NA
  end.

(** The rows of the table of one indicator. *)
Definition wb_table (records : list wb_record) : list (list cell) :=
  map (fun rec => wb_key rec ++ [wb_value rec]) records.

(** The rows of a frame for one country-year. *)
Definition rows_with_key (df : DataFrame) (k : list cell) : list (list cell) :=
  filter (fun r => key_eqb (key_cells (columns df) wb_keys r) k) (values df).

(** The year of a country-year lies within the bounds given. *)
Definition within (start_year end_year : option Z) (k : list cell) : bool :=
  match start_year with
  | Some y => year_ge y (nth 2 k NA)
  | None => true
  end
  && match end_year with
     | Some y => year_le y (nth 2 k NA)
     | None => true
     end.
(** ** The outer join, country-year by country-year *)

(** The country-year of a row whose first three cells are the join keys. *)
Definition key3 (r : list cell) : list cell :=
  [nth 0 r NA; nth 1 r NA; nth 2 r NA].

(** The value that the table of one indicator holds for a country-year, or
    the missing marker. *)
Definition lookup_value (T : list (list cell)) (k : list cell) : cell :=
  match find (fun r => key_eqb (key3 r) k) T with
  | Some r => nth 3 r NA
  | None => NA
  end.

Definition has_key (T : list (list cell)) (k : list cell) : bool :=
  existsb (fun r => key_eqb (key3 r) k) T.

(** The rows of the join that come from the rows of the left frame, and
    those that only the right frame has. *)
Definition matched_rows (vals T : list (list cell)) : list (list cell) :=
  flat_map
    (fun l =>
       match filter (fun r => key_eqb (key3 r) (key3 l)) T with
       | [] => [l ++ [NA]]
       | ms => map (fun r => l ++ [nth 3 r NA]) ms
       end)
    vals.

Definition right_only_rows (names : list string) (vals T : list (list cell))
  : list (list cell) :=
  map (fun r => key3 r ++ map (fun _ => NA) names ++ [nth 3 r NA])
      (filter (fun r => negb (existsb (fun l => key_eqb (key3 r) (key3 l)) vals))
              T).

(** [vals] is the outer join of the tables [tabs] of the indicators
    [names]: one row per country-year that some table has, holding for each
    table its value there or the missing marker. *)
Definition joined (names : list string) (tabs : list (list (list cell)))
  (vals : list (list cell)) : Prop :=
  List.length names = List.length tabs
  /\ NoDup (map key3 vals)
  /\ (forall r, In r vals ->
                r = key3 r ++ map (fun T => lookup_value T (key3 r)) tabs)
  /\ (forall k, In k (map key3 vals) <->
                exists T, In T tabs /\ has_key T k = true).
(** ** Indicators of a World Bank call

    For an indicator (code, name) of the mapping, with the records that the
    source returns for its code: the rows of its table, the frame built from
    them, and the conditions under which the merge is an outer join on
    country-years. *)

Definition wb_table_of (source : string -> str_or_list -> list wb_record)
  (countries : str_or_list) (kv : string * string) : list (list cell) :=
  wb_table (source (fst kv) countries).

Definition wb_frame_of (source : string -> str_or_list -> list wb_record)
  (countries : str_or_list) (kv : string * string) : DataFrame :=
  range_indexed (wb_keys ++ [snd kv]) (wb_table_of source countries kv).

(** The display name is no key label, the fetch returns a record, every
    date is an integer and no country-year comes twice. *)
Definition wb_well_formed (source : string -> str_or_list -> list wb_record)
  (countries : str_or_list) (kv : string * string) : Prop :=
  ~ In (snd kv) wb_keys
  /\ source (fst kv) countries <> []
  /\ (forall rec, In rec (source (fst kv) countries) ->
                  PyStr.int (date rec) <> None)
  /\ NoDup (map wb_key (source (fst kv) countries)).

(** The three key labels and a display name that is none of them, as four
    distinct labels. *)
Definition distinct4 (a b c d : string) : Prop :=
  String.eqb a b = false /\ String.eqb a c = false /\ String.eqb a d = false
  /\ String.eqb b a = false /\ String.eqb b c = false /\ String.eqb b d = false
  /\ String.eqb c a = false /\ String.eqb c b = false /\ String.eqb c d = false
  /\ String.eqb d a = false /\ String.eqb d b = false /\ String.eqb d c = false.

(* ================================================================== *)
(** * Example inputs *)

Module Examples.

(** Two GIDD pages: the first names the second, the second names none. *)
Definition gidd_records_1 : list record :=
  [[("iso3", Str "AFG"); ("year", Int 2015); ("start_date", Str "2015-03-01");
    ("figure", Int 120)]].

Definition gidd_records_2 : list record :=
  [[("iso3", Str "ALB"); ("year", Int 2016); ("start_date", Str "2016-07-12");
    ("figure", Int 45)]].

Definition gidd_page_1 : response :=
  mkResponse 200 (mkPage (Some gidd_records_1) (Some "https://example.org/p2")).

Definition gidd_page_2 : response :=
  mkResponse 200 (mkPage (Some gidd_records_2) None).

(** A listing without any record. *)
Definition gidd_no_records : list response :=
  [mkResponse 200 (mkPage (Some []) None)].

(** An IDMC file without hazard columns. *)
Definition idmc_plain : DataFrame :=
  mkDF ["ISO3"; "Start Date"; "Year"; "Figure"]
       [(0, [Str "AFG"; Str "2015-03-01"; Int 2015; Int 120]);
        (1, [Str "ALB"; Str "2020-07-12"; Int 2020; Int 45])].

(** HDI files: two countries and two years; no country column; a header
    with a malformed year and no data row; a malformed year and one row. *)
Definition hdi_wide : DataFrame :=
  mkDF ["iso3"; "country"; "region"; "hdi_1990"; "hdi_2000"]
       [(0, [Str "AFG"; Str "Afghanistan"; Str "SA"; Str "0.273"; Str "0.335"]);
        (1, [Str "ALB"; Str "Albania"; Str "ECA"; Str "0.647"; Str "0.677"])].

Definition hdi_indicators : dict string := [("hdi", "Human Development Index")].




(** A World Bank source: indicator A has Chad in 2010 and 2011, indicator B
    has Chad in 2011 only, any other indicator has no record. *)
Definition chad (year : string) (v : Z) : wb_record :=
  mkWB year (Some (Int v)) "Chad" "TD" (Some "TCD").

Definition wb_source (code : string) (countries : str_or_list)
  : list wb_record :=
  if String.eqb code "A" then [chad "2010" 11; chad "2011" 12]
  else if String.eqb code "B" then [chad "2011" 7]
  else [].

End Examples.

(* ================================================================== *)
(** * Properties *)

(* ================================================================== *)
(** * Column normalisation *)

Section Normalisation.

Import PyStr.

Ltac by_cases_on c :=
  destruct c as [[] [] [] [] [] [] [] []]; vm_compute; reflexivity.

Lemma isspace_lower_char (c : ascii) : isspace (lower_char c) = isspace c.
Proof. by_cases_on c. Qed.

Lemma isspace_space_to_underscore (c : ascii) :
  isspace c = false -> isspace (space_to_underscore c) = false.
Proof.
  destruct c as [[] [] [] [] [] [] [] []]; vm_compute; intro H;
    first [reflexivity | exact H].
Qed.

Lemma normalized_char (c : ascii) :
  lower_no_space (space_to_underscore (lower_char c)) = true.
Proof. by_cases_on c. Qed.

Lemma lower_no_space_fixed (c : ascii) :
  lower_no_space c = true -> space_to_underscore (lower_char c) = c.
Proof.
  destruct c as [[] [] [] [] [] [] [] []]; vm_compute; intro H;
    first [reflexivity | discriminate H].
Qed.

Lemma lstrip_starts_clean (s : string) : starts_clean (lstrip s) = true.
Proof.
  induction s as [|c s IH]; simpl; [reflexivity|].
  destruct (isspace c) eqn:E; [exact IH|].
  simpl. now rewrite E.
Qed.

Lemma lstrip_fixed (s : string) : starts_clean s = true -> lstrip s = s.
Proof.
  destruct s as [|c s]; simpl; [reflexivity|].
  destruct (isspace c); [discriminate|reflexivity].
Qed.

Lemma rstrip_ends_clean (s : string) : ends_clean (rstrip s) = true.
Proof.
  induction s as [|c s IH]; simpl; [reflexivity|].
  destruct (rstrip s) as [|d r] eqn:E.
  - destruct (isspace c) eqn:Ec; simpl; [reflexivity|now rewrite Ec].
  - exact IH.
Qed.

Lemma rstrip_fixed (s : string) : ends_clean s = true -> rstrip s = s.
Proof.
  induction s as [|c s IH]; simpl; [reflexivity|].
  destruct s as [|d t].
  - simpl. destruct (isspace c); [discriminate|reflexivity].
  - intro H. rewrite (IH H). reflexivity.
Qed.

Lemma rstrip_starts_clean (s : string) :
  starts_clean s = true -> starts_clean (rstrip s) = true.
Proof.
  destruct s as [|c s]; simpl; [reflexivity|].
  intro H. destruct (rstrip s); [|exact H].
  destruct (isspace c) eqn:E; simpl in *; [discriminate|now rewrite E].
Qed.

Lemma smap_starts_clean (f : ascii -> ascii) (s : string) :
  (forall c, isspace c = false -> isspace (f c) = false) ->
  starts_clean s = true -> starts_clean (smap f s) = true.
Proof.
  intros Hf. destruct s as [|c s]; simpl; [reflexivity|].
  intro H. apply negb_true_iff in H. apply negb_true_iff. now apply Hf.
Qed.

Lemma smap_ends_clean (f : ascii -> ascii) (s : string) :
  (forall c, isspace c = false -> isspace (f c) = false) ->
  ends_clean s = true -> ends_clean (smap f s) = true.
Proof.
  intros Hf. induction s as [|c s IH]; simpl; [reflexivity|].
  destruct s as [|d t]; simpl in *.
  - intro H. apply negb_true_iff in H. apply negb_true_iff. now apply Hf.
  - exact IH.
Qed.

Lemma smap_smap (f g : ascii -> ascii) (s : string) :
  smap f (smap g s) = smap (fun c => f (g c)) s.
Proof. induction s as [|c s IH]; simpl; [reflexivity|now rewrite IH]. Qed.

Lemma sforall_smap (p : ascii -> bool) (f : ascii -> ascii) (s : string) :
  (forall c, p (f c) = true) -> sforall p (smap f s) = true.
Proof.
  intro H. induction s as [|c s IH]; simpl; [reflexivity|].
  now rewrite H, IH.
Qed.

Lemma smap_fixed (p : ascii -> bool) (f : ascii -> ascii) (s : string) :
  (forall c, p c = true -> f c = c) -> sforall p s = true -> smap f s = s.
Proof.
  intro H. induction s as [|c s IH]; simpl; [reflexivity|].
  intro E. apply andb_true_iff in E as [Ec Es].
  now rewrite (H c Ec), (IH Es).
Qed.

(** What normalisation produces satisfies the invariant of normalised
    labels. *)
Lemma normalize_name_normalized (s : string) :
  is_normalized_name (normalize_name s) = true.
Proof.
  unfold is_normalized_name, normalize_name, replace_spaces, lower, strip.
  rewrite smap_smap.
  assert (Hf : forall c, isspace c = false ->
                         isspace (space_to_underscore (lower_char c)) = false).
  { intros c Hc. apply isspace_space_to_underscore.
    now rewrite isspace_lower_char. }
  rewrite smap_starts_clean, smap_ends_clean, sforall_smap; auto.
  - apply normalized_char.
  - apply rstrip_ends_clean.
  - apply rstrip_starts_clean, lstrip_starts_clean.
Qed.

(** A label that satisfies the invariant is left as it is. *)
Lemma normalize_name_fixed (s : string) :
  is_normalized_name s = true -> normalize_name s = s.
Proof.
  unfold is_normalized_name, normalize_name, replace_spaces, lower, strip.
  intro H. apply andb_true_iff in H as [H Hc].
  apply andb_true_iff in H as [Hs He].
  rewrite (lstrip_fixed _ Hs), (rstrip_fixed _ He), smap_smap.
  now apply smap_fixed with (p := lower_no_space);
    [apply lower_no_space_fixed|].
Qed.

End Normalisation.

Lemma map_fixed {A : Type} (f : A -> A) (p : A -> bool) (l : list A) :
  (forall x, p x = true -> f x = x) -> forallb p l = true -> map f l = l.
Proof.
  intro H. induction l as [|x l IH]; simpl; [reflexivity|].
  intro E. apply andb_true_iff in E as [Ex El].
  now rewrite (H x Ex), (IH El).
Qed.

(** C9: column normalisation is idempotent -- normalising twice gives the
    labels (and the table) that normalising once gives, and a table whose
    labels already satisfy the invariant of normalised tables is left
    identical. *)
Theorem normalize_columns_idempotent (df : DataFrame) :
  normalize_columns (normalize_columns df) = normalize_columns df
  /\ (normalized_table df = true -> normalize_columns df = df).
Proof.
  split.
  - unfold normalize_columns; simpl. f_equal.
    rewrite map_map. apply map_ext. intro c.
    apply normalize_name_fixed, normalize_name_normalized.
  - intro H. destruct df as [cols rs]. unfold normalize_columns; simpl.
    f_equal. apply map_fixed with (p := is_normalized_name); auto.
    apply normalize_name_fixed.
Qed.

Lemma normalize_columns_idempotent_witness :
  normalize_columns (normalize_columns Examples.idmc_plain)
  = normalize_columns Examples.idmc_plain
  /\ normalize_columns Examples.hdi_wide = Examples.hdi_wide.
Proof.
  split.
  - apply (proj1 (normalize_columns_idempotent Examples.idmc_plain)).
  - apply (proj2 (normalize_columns_idempotent Examples.hdi_wide)).
    reflexivity.
Defined.

(* ================================================================== *)
(** * The paginated fetch *)

Lemma fetch_loop_follows_next (rs : list response) (rl : response)
  (rest : list response) :
  forallb status_ok (rs ++ [rl]) = true ->
  forallb has_next rs = true ->
  has_next rl = false ->
  forall base_url params all_records sent,
    fetch_loop (rs ++ rl :: rest) base_url params all_records sent =
    Some (sent ++ mkRequest base_url params
                :: map (fun r => mkRequest (next_url r) []) rs,
          Ok (all_records ++ flat_map page_results (rs ++ [rl]))).
Proof.
  induction rs as [|r rs IH]; simpl; intros Hok Hnext Hlast base_url ps acc sent.
  - unfold status_ok in Hok. rewrite andb_true_r in Hok.
    apply negb_true_iff in Hok. rewrite Hok.
    unfold has_next in Hlast. unfold page_results. rewrite app_nil_r.
    destruct (next (json rl)) as [u|]; [rewrite Hlast|]; reflexivity.
  - apply andb_true_iff in Hok as [Hr Hok].
    apply andb_true_iff in Hnext as [Hn Hnext].
    unfold status_ok in Hr. apply negb_true_iff in Hr. rewrite Hr.
    unfold has_next in Hn. unfold next_url at 1.
    destruct (next (json r)) as [u|]; [|discriminate].
    rewrite Hn, (IH Hok Hnext Hlast).
    rewrite <- !app_assoc. reflexivity.
Qed.

(** C6: when the pages served are [rs], each naming a next page, followed
    by a page [rl] whose [next] is absent or null, the fetch ends; it asks
    for the first page at the base URL with [client_id] and [limit], for
    every later page at the literal [next] URL of the page before it with no
    parameters, and gathers the [results] arrays of all these pages,
    concatenated in page order. *)
Theorem fetch_all_records_concatenates_pages
  (rs : list response) (rl : response) (rest : list response)
  (client_id : string) (limit : Z) :
  forallb status_ok (rs ++ [rl]) = true ->
  forallb has_next rs = true ->
  next (json rl) = None ->
  fetch_all_records (rs ++ rl :: rest) client_id limit =
  Some (mkRequest gidd_url [("client_id", Str client_id); ("limit", Int limit)]
          :: map (fun r => mkRequest (next_url r) []) rs,
        Ok (flat_map page_results (rs ++ [rl]))).
Proof.
  intros Hok Hnext Hlast. unfold fetch_all_records.
  rewrite fetch_loop_follows_next; auto.
  unfold has_next. now rewrite Hlast.
Qed.

Lemma fetch_all_records_concatenates_pages_witness :
  fetch_all_records [Examples.gidd_page_1; Examples.gidd_page_2] "id" 500 =
  Some ([mkRequest gidd_url [("client_id", Str "id"); ("limit", Int 500)];
         mkRequest "https://example.org/p2" []],
        Ok (Examples.gidd_records_1 ++ Examples.gidd_records_2)).
Proof.
  apply (fetch_all_records_concatenates_pages
           [Examples.gidd_page_1] Examples.gidd_page_2 [] "id" 500);
    reflexivity.
Defined.

(* ================================================================== *)
(** * GIDD *)

Section Gidd.

Variable to_numeric : string -> option Z.

(** C10, as the code has it: when the fetch gathers no record at all,
    [get_data_GIDD] returns no table: the frame built from the records has
    no column.  Where its [columns] are a [RangeIndex] (pandas 2.0 and
    later) the normalisation of the labels raises AttributeError, before
    the [year] column is read; where they are an empty [Index] of objects,
    the labels are normalised and reading the [year] column raises a
    KeyError. *)
Theorem get_data_GIDD_no_records (range_columns : bool)
  (script : list response) (client_id : string) (limit : Z)
  (sent : list request)
  (iso3 : option str_or_list) (start_year end_year : option Z)
  (hazard_category_name hazard_type_name : option string)
  (indicators : indicator_spec) :
  fetch_all_records script client_id limit = Some (sent, Ok []) ->
  get_data_GIDD to_numeric range_columns script client_id limit iso3
                start_year end_year hazard_category_name hazard_type_name
                indicators
  = Some (sent, Err (if range_columns then AttributeError
                     else KeyError "year")).
Proof.
  intro H. unfold get_data_GIDD. rewrite H.
  destruct range_columns; reflexivity.
Qed.

End Gidd.

Lemma get_data_GIDD_no_records_witness :
  get_data_GIDD PyStr.int true Examples.gidd_no_records "id" 500
                None None None None None IndNone
  = Some ([mkRequest gidd_url [("client_id", Str "id"); ("limit", Int 500)]],
          Err AttributeError)
  /\ get_data_GIDD PyStr.int false Examples.gidd_no_records "id" 500
                   None None None None None IndNone
     = Some ([mkRequest gidd_url [("client_id", Str "id"); ("limit", Int 500)]],
             Err (KeyError "year")).
Proof.
  split.
  - apply (get_data_GIDD_no_records PyStr.int true Examples.gidd_no_records
             "id" 500).
    reflexivity.
  - apply (get_data_GIDD_no_records PyStr.int false Examples.gidd_no_records
             "id" 500).
    reflexivity.
Defined.

(** C10, as stated, fails where an empty frame has a [RangeIndex] for
    columns: the call on a listing without any record raises the
    AttributeError of the label normalisation, not a KeyError; the [year]
    column is never read. *)
Lemma no_records_raise_AttributeError :
  get_data_GIDD PyStr.int true Examples.gidd_no_records "id" 500
                None None None None None IndNone
  = Some ([mkRequest gidd_url [("client_id", Str "id"); ("limit", Int 500)]],
          Err AttributeError)
  /\ get_data_GIDD PyStr.int true Examples.gidd_no_records "id" 500
                   None None None None None IndNone
     <> Some ([mkRequest gidd_url [("client_id", Str "id"); ("limit", Int 500)]],
              Err (KeyError "year")).
Proof.
  split; [reflexivity|discriminate].
Qed.

(* ================================================================== *)
(** * Missing columns *)

Lemma position_None (c : string) (cols : list string) :
  position c cols = None <-> ~ In c cols.
Proof.
  induction cols as [|c' cols IH]; simpl.
  - tauto.
  - destruct (String.eqb_spec c' c) as [->|Hne].
    + split; [discriminate|]. intro H. exfalso. apply H. now left.
    + destruct (position c cols) eqn:E; simpl.
      * split; [discriminate|]. intro H. exfalso.
        assert (Hn : ~ In c cols) by (intro; apply H; now right).
        apply IH in Hn. discriminate.
      * split; [|reflexivity]. intros _ [H|H]; [congruence|].
        now apply (proj1 IH).
Qed.

Lemma mem_In (c : string) (l : list string) : mem c l = true <-> In c l.
Proof.
  unfold mem. rewrite existsb_exists. split.
  - intros [x [Hx E]]. apply String.eqb_eq in E. now subst.
  - intro H. exists c. split; [exact H|apply String.eqb_refl].
Qed.


Lemma first_missing_None (cs cols : list string) :
  first_missing cs cols = None <-> (forall c, In c cs -> In c cols).
Proof.
  induction cs as [|c' cs IH]; simpl.
  - split; [intros _ c []|reflexivity].
  - destruct (mem c' cols) eqn:E.
    + rewrite IH. apply mem_In in E. split.
      * intros H c [<-|Hc]; auto.
      * intros H c Hc. apply H. now right.
    + split; [discriminate|]. intro H.
      assert (Hin : In c' cols) by (apply H; now left).
      apply mem_In in Hin. congruence.
Qed.






Lemma select_Ok (df df' : DataFrame) (cs : list string) :
  select df cs = Ok df' -> (forall c, In c cs -> In c (columns df)).
Proof.
  unfold select. destruct (first_missing cs (columns df)) as [c|] eqn:E.
  - discriminate.
  - intros _. now apply first_missing_None.
Qed.

Lemma bind_Ok {A B : Type} (r : result A) (k : A -> result B) (b : B) :
  bind r k = Ok b -> exists a, r = Ok a /\ k a = Ok b.
Proof. destruct r as [a|e]; simpl; [eauto|discriminate]. Qed.

Lemma bind_Err {A B : Type} (r : result A) (k : A -> result B) (e : error) :
  bind r k = Err e -> r = Err e \/ exists a, r = Ok a /\ k a = Err e.
Proof.
  destruct r as [a|e']; simpl; intro H.
  - right. now exists a.
  - left. now injection H as ->.
Qed.





Section MissingColumns.

Variable to_numeric : string -> option Z.
Variable range_columns : bool.



Lemma where_col_Ok (df df' : DataFrame) (c : string) (test : cell -> bool) :
  where_col df c test = Ok df' -> columns df' = columns df /\ In c (columns df).
Proof.
  unfold where_col. destruct (position c (columns df)) eqn:E; [|discriminate].
  intro H. injection H as <-. split; [reflexivity|].
  destruct (in_dec string_dec c (columns df)) as [Hin|Hn]; [exact Hin|].
  apply position_None in Hn. congruence.
Qed.

Lemma map_col_Ok (df df' : DataFrame) (c : string) (f : cell -> cell) :
  map_col df c f = Ok df' -> columns df' = columns df /\ In c (columns df).
Proof.
  unfold map_col. destruct (position c (columns df)) eqn:E; [|discriminate].
  intro H. injection H as <-. split; [reflexivity|].
  destruct (in_dec string_dec c (columns df)) as [Hin|Hn]; [exact Hin|].
  apply position_None in Hn. congruence.
Qed.

Lemma if_truthy_Ok {A : Type} (arg : option A) (truthy : A -> bool)
  (df df' : DataFrame) (c : string) (test : A -> cell -> bool) :
  if_truthy arg truthy df (fun v => where_col df c (test v)) = Ok df' ->
  columns df' = columns df
  /\ (forall c', In c' (named_if arg truthy c) -> In c' (columns df)).
Proof.
  unfold if_truthy, named_if. destruct arg as [v|].
  - destruct (truthy v).
    + intro H. apply where_col_Ok in H as [H1 H2]. split; [exact H1|].
      intros c' [<-|[]]. exact H2.
    + intro H. injection H as <-. split; [reflexivity|intros c' []].
  - intro H. injection H as <-. split; [reflexivity|intros c' []].
Qed.

Lemma named_if_given {A : Type} (arg : option A) (active : A -> bool)
  (c c' : string) :
  In c' (named_if arg active c) -> c' = c.
Proof.
  unfold named_if. destruct arg as [v|]; [|intros []].
  destruct (active v); [|intros []]. now intros [<-|[]].
Qed.






Variables (indicators : indicator_spec) (iso3 : option str_or_list)
  (start_year end_year : option Z)
  (hazard_category_name hazard_type_name : option string).


End MissingColumns.



(* ================================================================== *)
(** * Indicator columns of GIDD *)

(** C1 (the code departs from it): called with the mapping
    [{figure: Displacements}], [get_data_GIDD] returns the base columns
    followed by the column [figure] under its source label; the display
    name [Displacements] appears nowhere. *)
Theorem get_data_GIDD_keeps_source_labels (range_columns : bool) :
  get_data_GIDD PyStr.int range_columns [Examples.gidd_page_2] "id" 500
                None None None None None (IndMap [("figure", "Displacements")])
  = Some ([mkRequest gidd_url [("client_id", Str "id"); ("limit", Int 500)]],
          Ok (mkDF ["iso3"; "year"; "start_date"; "figure"]
                   [(0, [Str "ALB"; Int 2016; Str "2016-07-12"; Int 45])])).
Proof. reflexivity. Qed.

(** On the same table and mapping, [get_data_IDMC] renames the column. *)
Lemma get_data_IDMC_renames :
  get_data_IDMC PyStr.int Examples.idmc_plain
                (IndMap [("figure", "Displacements")]) None None None None None
  = Ok (mkDF ["iso3"; "start_date"; "year"; "Displacements"]
             [(0, [Str "AFG"; Str "2015-03-01"; Int 2015; Int 120]);
              (1, [Str "ALB"; Str "2020-07-12"; Int 2020; Int 45])]).
Proof. reflexivity. Qed.

(* ================================================================== *)
(** * The index of the returned table *)

Lemma fst_combine_seq {A : Type} (l : list A) (n : nat) :
  map fst (combine (seq n (List.length l)) l) = seq n (List.length l).
Proof.
  revert n. induction l as [|x l IH]; intro n; simpl; [reflexivity|].
  now rewrite IH.
Qed.

Lemma snd_combine_seq {A : Type} (l : list A) (n : nat) :
  map snd (combine (seq n (List.length l)) l) = l.
Proof.
  revert n. induction l as [|x l IH]; intro n; simpl; [reflexivity|].
  now rewrite IH.
Qed.

Lemma length_combine_seq {A : Type} (l : list A) (n : nat) :
  List.length (combine (seq n (List.length l)) l) = List.length l.
Proof. now rewrite length_combine, length_seq, Nat.min_id. Qed.

Lemma reset_index_dense (df : DataFrame) : dense_index (reset_index df).
Proof.
  unfold dense_index, reset_index, range_indexed, index; simpl.
  now rewrite length_combine_seq, fst_combine_seq.
Qed.

(** C2 (the code departs from it): [get_data_WB] with a start year keeps
    the index labels of the rows that pass the filter; here the one row
    returned has label 1, not 0. *)
Theorem get_data_WB_keeps_index_labels :
  get_data_WB Examples.wb_source [("A", "GDP")] (One "all") (Some 2011%Z) None
  = Ok (mkDF ["Country"; "ISO3"; "Year"; "GDP"]
             [(1, [Str "Chad"; Str "TCD"; Int 2011; Int 12])]).
Proof. reflexivity. Qed.

Lemma get_data_WB_index_not_dense :
  exists df,
    get_data_WB Examples.wb_source [("A", "GDP")] (One "all") (Some 2011%Z) None
    = Ok df /\ ~ dense_index df.
Proof.
  eexists. split; [reflexivity|].
  unfold dense_index; simpl. discriminate.
Qed.

(* ================================================================== *)
(** * Year bounds *)

(** C4 (the code departs from it): [get_data_IDMC] tests its bounds with
    [if end_year:], so the bound 0 is skipped; every row is returned,
    although no year is at most 0. *)
Theorem get_data_IDMC_ignores_zero_bound :
  get_data_IDMC PyStr.int Examples.idmc_plain IndNone None None (Some 0%Z)
                None None
  = Ok (mkDF ["iso3"; "start_date"; "year"; "figure"]
             [(0, [Str "AFG"; Str "2015-03-01"; Int 2015; Int 120]);
              (1, [Str "ALB"; Str "2020-07-12"; Int 2020; Int 45])]).
Proof. reflexivity. Qed.

(* ================================================================== *)
(** * What the other pipelines do *)

(** The year filters themselves are inclusive bounds. *)
Lemma where_col_year_ge (df df' : DataFrame) (c : string) (bound : Z) :
  where_col df c (year_ge bound) = Ok df' ->
  forall r, In r (values df') ->
            exists y, cell_at (columns df') c r = Int y /\ (bound <= y)%Z.
Proof.
  unfold where_col, cell_at.
  destruct (position c (columns df)) as [i|] eqn:E; [|discriminate].
  intro H. injection H as <-. simpl. rewrite E.
  intros r Hr. unfold values in Hr. simpl in Hr.
  apply in_map_iff in Hr as [[j r'] [<- Hr]].
  apply filter_In in Hr as [_ Hr]. simpl in *.
  destruct (nth i r' NA) as [|y|s]; try discriminate.
  exists y. split; [reflexivity|]. now apply Z.leb_le.
Qed.

Lemma where_col_year_le (df df' : DataFrame) (c : string) (bound : Z) :
  where_col df c (year_le bound) = Ok df' ->
  forall r, In r (values df') ->
            exists y, cell_at (columns df') c r = Int y /\ (y <= bound)%Z.
Proof.
  unfold where_col, cell_at.
  destruct (position c (columns df)) as [i|] eqn:E; [|discriminate].
  intro H. injection H as <-. simpl. rewrite E.
  intros r Hr. unfold values in Hr. simpl in Hr.
  apply in_map_iff in Hr as [[j r'] [<- Hr]].
  apply filter_In in Hr as [_ Hr]. simpl in *.
  destruct (nth i r' NA) as [|y|s]; try discriminate.
  exists y. split; [reflexivity|]. now apply Z.leb_le.
Qed.

(** [get_data_HDI], [get_data_IDMC] and the table part of [get_data_GIDD]
    end with [reset_index]: what they return has the dense index. *)
Lemma get_data_HDI_dense (raw df : DataFrame) (indicators : dict string)
  (countries : option str_or_list) (start_year end_year : option Z) :
  get_data_HDI raw indicators countries start_year end_year = Ok df ->
  dense_index df.
Proof.
  unfold get_data_HDI. intro H.
  repeat (apply bind_Ok in H as [? [_ H]]).
  injection H as <-. apply reset_index_dense.
Qed.

Lemma get_data_IDMC_dense (to_numeric : string -> option Z)
  (raw df : DataFrame) (indicators : indicator_spec)
  (iso3 : option str_or_list) (start_year end_year : option Z)
  (hazard_category_name hazard_type_name : option string) :
  get_data_IDMC to_numeric raw indicators iso3 start_year end_year
                hazard_category_name hazard_type_name = Ok df ->
  dense_index df.
Proof.
  unfold get_data_IDMC. intro H.
  do 6 (apply bind_Ok in H as [? [_ H]]).
  destruct indicators; apply bind_Ok in H as [? [_ H]];
    injection H as <-; apply reset_index_dense.
Qed.

Lemma gidd_table_dense (to_numeric : string -> option Z)
  (range_columns : bool) (all_records : list record) (df : DataFrame)
  (iso3 : option str_or_list) (start_year end_year : option Z)
  (hazard_category_name hazard_type_name : option string)
  (indicators : indicator_spec) :
  gidd_table to_numeric range_columns all_records iso3 start_year end_year
             hazard_category_name hazard_type_name indicators = Ok df ->
  dense_index df.
Proof.
  unfold gidd_table. intro H.
  do 7 (apply bind_Ok in H as [? [_ H]]).
  destruct indicators; try apply bind_Ok in H as [? [_ H]];
    injection H as <-; apply reset_index_dense.
Qed.

(* ================================================================== *)
(** * Frames with the default index *)

Lemma map_combine_snd {A B C : Type} (g : B -> C) (idx : list A) (l : list B) :
  map (fun r => (fst r, g (snd r))) (combine idx l) = combine idx (map g l).
Proof.
  revert l. induction idx as [|i idx IH]; intros [|x l]; simpl; auto.
  now rewrite IH.
Qed.

Lemma values_range_indexed (cols : list string) (vals : list (list cell)) :
  values (range_indexed cols vals) = vals.
Proof. apply snd_combine_seq. Qed.

Lemma getitem_range_indexed (cols : list string) (vals : list (list cell))
  (c : string) (i : nat) :
  position c cols = Some i ->
  getitem (range_indexed cols vals) c = Ok (map (fun r => nth i r NA) vals).
Proof.
  intro H. unfold getitem; simpl. rewrite H. f_equal.
  rewrite <- (map_map snd (fun r => nth i r NA)).
  now rewrite snd_combine_seq.
Qed.

Lemma with_col_range_indexed (cols : list string) (vals : list (list cell))
  (c : string) (f : list cell -> cell) :
  position c cols = None ->
  with_col (range_indexed cols vals) c f
  = range_indexed (cols ++ [c]) (map (fun r => r ++ [f r]) vals).
Proof.
  intro H. unfold with_col; simpl. rewrite H.
  unfold range_indexed. f_equal.
  rewrite length_map.
  apply (map_combine_snd (fun r => r ++ [f r])).
Qed.

Lemma drop_range_indexed (cols : list string) (vals : list (list cell))
  (c : string) (i : nat) :
  position c cols = Some i ->
  drop (range_indexed cols vals) c
  = Ok (range_indexed (remove_nth i cols) (map (remove_nth i) vals)).
Proof.
  intro H. unfold drop; simpl. rewrite H.
  unfold range_indexed. do 2 f_equal.
  rewrite length_map.
  apply (map_combine_snd (remove_nth i)).
Qed.

(** ** Conversions that can raise *)

Lemma collect_length {A B : Type} (f : A -> result B) (l : list A) (ys : list B) :
  collect f l = Ok ys -> List.length ys = List.length l.
Proof.
  revert ys. induction l as [|x l IH]; simpl; intros ys H.
  - now injection H as <-.
  - destruct (f x) as [y|e]; simpl in H; [|discriminate].
    destruct (collect f l) as [ys'|e]; simpl in H; [|discriminate].
    injection H as <-. simpl. now rewrite (IH ys').
Qed.

Lemma collect_Ok {A B : Type} (f : A -> result B) (g : A -> B) (l : list A) :
  (forall x, In x l -> f x = Ok (g x)) -> collect f l = Ok (map g l).
Proof.
  induction l as [|x l IH]; simpl; intro H; [reflexivity|].
  rewrite (H x (or_introl eq_refl)); simpl.
  rewrite IH; [reflexivity|]. intros y Hy. apply H. now right.
Qed.

Lemma collect_Err {A B : Type} (f : A -> result B) (l : list A) (e : error) :
  collect f l = Err e -> exists x, In x l /\ f x = Err e.
Proof.
  induction l as [|x l IH]; simpl; [discriminate|].
  destruct (f x) as [y|e'] eqn:E; simpl.
  - destruct (collect f l) as [ys|e'']; simpl; [discriminate|].
    intro H. injection H as ->. destruct (IH eq_refl) as [x' [Hx' Hf]].
    exists x'. split; [now right|exact Hf].
  - intro H. injection H as ->. exists x. split; [now left|exact E].
Qed.

Lemma collect_some_Err {A B : Type} (f : A -> result B) (l : list A) (x : A)
  (e : error) :
  In x l -> f x = Err e -> exists e', collect f l = Err e'.
Proof.
  induction l as [|y l IH]; simpl; [intros []|].
  intros [->|Hx] Hf.
  - rewrite Hf. simpl. now exists e.
  - destruct (f y) as [z|e']; simpl; [|now exists e'].
    destruct (IH Hx Hf) as [e' ->]. simpl. now exists e'.
Qed.

Lemma collect_combine {A B C : Type} (f : B -> result C) (idx : list A)
  (l : list B) :
  List.length idx = List.length l ->
  collect (fun r => v <- f (snd r) ;; Ok (fst r, v)) (combine idx l)
  = (ys <- collect f l ;; Ok (combine idx ys)).
Proof.
  revert l. induction idx as [|i idx IH]; intros [|x l]; simpl; try discriminate.
  - reflexivity.
  - intro H. injection H as H. destruct (f x) as [y|e]; simpl; [|reflexivity].
    rewrite (IH l H). destruct (collect f l); reflexivity.
Qed.

Lemma convert_col_range_indexed (cols : list string) (vals : list (list cell))
  (c : string) (i : nat) (f : cell -> result cell) :
  position c cols = Some i ->
  convert_col (range_indexed cols vals) c f
  = (vals' <- collect (fun r => v <- f (nth i r NA) ;;
                                Ok (update_nth i (fun _ => v) r)) vals ;;
     Ok (range_indexed cols vals')).
Proof.
  intro H. unfold convert_col; simpl. rewrite H.
  transitivity
    (rs <- collect
             (fun r => v <- (fun x => v <- f (nth i x NA) ;;
                                      Ok (update_nth i (fun _ => v) x)) (snd r) ;;
                       Ok (fst r, v))
             (combine (seq 0 (List.length vals)) vals) ;;
     Ok (mkDF cols rs)).
  - f_equal.
    generalize (combine (seq 0 (List.length vals)) vals) as l.
    induction l as [|x l IH]; simpl; [reflexivity|].
    rewrite IH. destruct (f (nth i (snd x) NA)); reflexivity.
  - rewrite (collect_combine
               (fun x => v <- f (nth i x NA) ;; Ok (update_nth i (fun _ => v) x)))
      by apply length_seq.
    destruct (collect _ vals) as [vals'|e] eqn:E; simpl; [|reflexivity].
    unfold range_indexed. now rewrite (collect_length _ _ _ E).
Qed.

(* ================================================================== *)
(** * The wide-to-long reshape *)

Lemma rsplit_underscore_None (s : string) :
  PyStr.rsplit_underscore s = None ->
  forall p q, s <> (p ++ String "_" q)%string.
Proof.
  induction s as [|c s IH]; simpl; intros H p q E.
  - destruct p; discriminate.
  - destruct (PyStr.rsplit_underscore s) as [[h t]|]; [discriminate|].
    destruct p as [|c' p]; simpl in E.
    + injection E as Ec Es. subst c. discriminate.
    + injection E as Ec Es. now apply (IH eq_refl p q).
Qed.

Lemma prefix_split (p s : string) :
  String.prefix p s = true -> exists q, s = (p ++ q)%string.
Proof.
  revert s. induction p as [|c p IH]; intros s.
  - intros _. now exists s.
  - destruct s as [|d s]; simpl; [discriminate|].
    destruct (Ascii.ascii_dec c d) as [->|Hne]; [|discriminate].
    intro H. destruct (IH s H) as [q ->]. now exists q.
Qed.

Lemma append_assoc (a b c : string) :
  ((a ++ b) ++ c = a ++ (b ++ c))%string.
Proof. induction a as [|x a IH]; simpl; [reflexivity|now rewrite IH]. Qed.

(** A selected column has an underscore, so it splits in two. *)
Lemma value_var_splits (cols : list string) (indicators : dict string)
  (v : string) :
  In v (value_vars_of cols indicators) ->
  exists h t, PyStr.rsplit_underscore v = Some (h, t).
Proof.
  unfold value_vars_of. intro H. apply filter_In in H as [_ H].
  apply existsb_exists in H as [p [_ H]].
  unfold PyStr.startswith in H. apply prefix_split in H as [q ->].
  destruct (PyStr.rsplit_underscore ((p ++ "_") ++ q)) as [[h t]|] eqn:E.
  - now exists h, t.
  - exfalso. apply (rsplit_underscore_None _ E p q).
    now rewrite append_assoc.
Qed.

Lemma value_vars_of_In (cols : list string) (indicators : dict string)
  (v : string) :
  In v (value_vars_of cols indicators) -> In v cols.
Proof. unfold value_vars_of. intro H. now apply filter_In in H. Qed.

Lemma flat_map_ext_in {A B : Type} (f g : A -> list B) (l : list A) :
  (forall x, In x l -> f x = g x) -> flat_map f l = flat_map g l.
Proof.
  induction l as [|x l IH]; simpl; intro H; [reflexivity|].
  rewrite (H x (or_introl eq_refl)), IH; [reflexivity|].
  intros y Hy. apply H. now right.
Qed.

Lemma collect_map {A B C : Type} (f : B -> result C) (g : A -> B) (l : list A) :
  collect f (map g l) = collect (fun x => f (g x)) l.
Proof.
  induction l as [|x l IH]; simpl; [reflexivity|]. now rewrite IH.
Qed.

Lemma flat_map_list_prod {A B C : Type} (f : A -> B -> C) (l : list A)
  (l' : list B) :
  flat_map (fun x => map (f x) l') l
  = map (fun p => f (fst p) (snd p)) (list_prod l l').
Proof.
  induction l as [|x l IH]; simpl; [reflexivity|].
  now rewrite map_app, map_map, IH.
Qed.


Lemma melt_HDI (df : DataFrame) (indicators : dict string) :
  (forall c, In c hdi_id_vars -> In c (columns df)) ->
  melt df hdi_id_vars (value_vars_of (columns df) indicators)
       "metric_year" "value"
  = Ok (range_indexed ["iso3"; "country"; "region"; "metric_year"; "value"]
          (map (melted (columns df))
               (list_prod (value_vars_of (columns df) indicators) (values df)))).
Proof.
  intro Hid. unfold melt.
  replace (first_missing _ _) with (@None string).
  2: { symmetry. apply first_missing_None. intros c Hc.
       apply in_app_iff in Hc as [Hc|Hc]; [now apply Hid|].
       now apply value_vars_of_In in Hc. }
  do 2 f_equal.
  now rewrite <- (flat_map_list_prod (fun v r => melted (columns df) (v, r))).
Qed.

Lemma expand_width_two (series : list cell) :
  series <> [] ->
  (forall c, In c series -> List.length (rsplit_parts c) = 2) ->
  expand_width series = 2.
Proof.
  unfold expand_width. induction series as [|c l IH]; [congruence|].
  intros _ H. simpl. rewrite (H c (or_introl eq_refl)).
  destruct l as [|c' l']; [reflexivity|].
  rewrite IH; [reflexivity|discriminate|]. intros x Hx. apply H. now right.
Qed.



Lemma bind_bind {A B C : Type} (r : result A) (k1 : A -> result B)
  (k2 : B -> result C) :
  bind (bind r k1) k2 = bind r (fun x => bind (k1 x) k2).
Proof. destruct r; reflexivity. Qed.

Lemma collect_ext_in {A B : Type} (f g : A -> result B) (l : list A) :
  (forall x, In x l -> f x = g x) -> collect f l = collect g l.
Proof.
  induction l as [|x l IH]; simpl; intro H; [reflexivity|].
  rewrite (H x (or_introl eq_refl)), IH; [reflexivity|].
  intros y Hy. apply H. now right.
Qed.

Lemma collect_bind_map {A B C : Type} (f : A -> result B) (g : B -> C)
  (l : list A) :
  collect (fun x => y <- f x ;; Ok (g y)) l
  = (ys <- collect f l ;; Ok (map g ys)).
Proof.
  induction l as [|x l IH]; simpl; [reflexivity|].
  rewrite IH. destruct (f x); simpl; [|reflexivity].
  destruct (collect f l); reflexivity.
Qed.

Lemma bind_ext_collect {A B C : Type} (f g : A -> result B) (l : list A)
  (k k' : list B -> result C) :
  (forall x, In x l -> f x = g x) -> (forall ys, k ys = k' ys) ->
  bind (collect f l) k = bind (collect g l) k'.
Proof.
  intros Hf Hk. rewrite (collect_ext_in f g l Hf).
  destruct (collect g l); simpl; [apply Hk|reflexivity].
Qed.

Lemma reshape_long_HDI_steps (df : DataFrame) (indicators : dict string) :
  (forall c, In c hdi_id_vars -> In c (columns df)) ->
  reshape_long_HDI df indicators
  = match list_prod (value_vars_of (columns df) indicators) (values df) with
    | [] => Err LengthMismatch
    | pairs =>
        long <- collect (fun p => finish_row indicators (melted (columns df) p))
                        pairs ;;
        Ok (range_indexed long_columns long)
    end.
Proof.
  intro Hid. unfold reshape_long_HDI. rewrite (melt_HDI df indicators Hid).
  set (pairs := list_prod _ _).
  assert (Hpairs : forall p, In p pairs ->
            exists h t, PyStr.rsplit_underscore (fst p) = Some (h, t)).
  { intros [v r] Hp. apply in_prod_iff in Hp as [Hv _].
    now apply value_var_splits in Hv. }
  cbn [bind].
  rewrite (getitem_range_indexed _ _ "metric_year" 3) by reflexivity.
  cbn [bind].
  rewrite map_map.
  destruct pairs as [|p0 pairs'] eqn:Ep; [reflexivity|].
  rewrite <- Ep in *.
  rewrite expand_width_two.
  2: { rewrite Ep. discriminate. }
  2: { intros c Hc. apply in_map_iff in Hc as [p [<- Hp]].
       destruct (Hpairs p Hp) as [h [t E]]. cbn. now rewrite E. }
  cbn [Nat.eqb negb].
  rewrite (with_col_range_indexed _ _ "metric") by reflexivity.
  rewrite (with_col_range_indexed _ _ "year") by reflexivity.
  rewrite (convert_col_range_indexed _ _ "year" 6) by reflexivity.
  rewrite !map_map, collect_map.
  rewrite bind_bind.
  transitivity
    (long <- collect
               (fun p => y <- (fun x => row_before_drop (melted (columns df) x)) p ;;
                         Ok (after_drop indicators y))
               pairs ;;
     Ok (range_indexed long_columns long)).
  - rewrite collect_bind_map, bind_bind. cbn [bind].
    apply bind_ext_collect.
    + intros p Hp. destruct (Hpairs p Hp) as [h [t E]].
      destruct p as [v r]. unfold row_before_drop. cbn in E |- *.
      now rewrite E.
    + intros vals'.
      rewrite (drop_range_indexed _ _ "metric_year" 3) by reflexivity.
      cbn [bind].
      rewrite (with_col_range_indexed _ _ "metric_name") by reflexivity.
      rewrite map_map. reflexivity.
  - f_equal. apply collect_ext_in. intros p Hp.
    destruct (Hpairs p Hp) as [h [t E]]. destruct p as [v r].
    unfold row_before_drop, finish_row, year_suffix, metric_of, after_drop.
    cbn in E |- *. rewrite E. cbn.
    destruct (PyStr.int t); reflexivity.
Qed.

Lemma first_missing_app (a b cols : list string) :
  first_missing (a ++ b) cols
  = match first_missing a cols with
    | Some c => Some c
    | None => first_missing b cols
    end.
Proof.
  induction a as [|c a IH]; simpl; [reflexivity|].
  destruct (mem c cols); [exact IH|reflexivity].
Qed.

Lemma reshape_long_HDI_missing (df : DataFrame) (indicators : dict string)
  (c : string) :
  first_missing hdi_id_vars (columns df) = Some c ->
  reshape_long_HDI df indicators = Err (KeyError c).
Proof.
  intro H. unfold reshape_long_HDI, melt.
  now rewrite first_missing_app, H.
Qed.

Lemma finish_row_melted (cols : list string) (indicators : dict string)
  (v : string) (r : list cell) :
  finish_row indicators (melted cols (v, r))
  = match PyStr.int (year_suffix v) with
    | Some z => Ok (observation cols indicators v r)
    | None => Err (InvalidLiteral (year_suffix v))
    end.
Proof.
  unfold finish_row, melted, observation, year_cell; simpl.
  destruct (PyStr.int (year_suffix v)); reflexivity.
Qed.





(* ================================================================== *)
(** * Shape, order and round trip of the reshape *)

Lemma cell_eqb_eq (a b : cell) : cell_eqb a b = true <-> a = b.
Proof.
  destruct a as [|x|x], b as [|y|y]; simpl;
    try (split; [discriminate|congruence]); try tauto.
  - rewrite Z.eqb_eq. split; congruence.
  - rewrite String.eqb_eq. split; congruence.
Qed.

Lemma key_eqb_eq (k1 k2 : list cell) : key_eqb k1 k2 = true <-> k1 = k2.
Proof.
  revert k2. induction k1 as [|a k1 IH]; intros [|b k2]; simpl;
    try (split; [discriminate|congruence]); try tauto.
  rewrite andb_true_iff, cell_eqb_eq, IH. split.
  - now intros [-> ->].
  - intro H. now injection H.
Qed.

Lemma key_eqb_refl (k : list cell) : key_eqb k k = true.
Proof. now apply key_eqb_eq. Qed.


(** Among elements with distinct keys, a filter that tests for the key of
    one of them keeps that element alone. *)
Lemma filter_unique_key {A K : Type} (k : A -> K) (q : A -> bool)
  (l : list A) (x : A) :
  (forall y, q y = true <-> k y = k x) ->
  NoDup (map k l) -> In x l ->
  filter q l = [x].
Proof.
  intros Hq. induction l as [|y l IH]; simpl; [intros _ []|].
  intros Hnd Hin. apply NoDup_cons_iff in Hnd as [Hy Hnd].
  assert (Hout : ~ In (k x) (map k l) -> filter q l = []).
  { clear -Hq. induction l as [|w l IHl]; simpl; [reflexivity|].
    intro Hz. destruct (q w) eqn:E.
    - apply Hq in E. exfalso. apply Hz. now left.
    - apply IHl. intro H. apply Hz. now right. }
  destruct Hin as [->|Hin].
  - replace (q x) with true by (symmetry; now apply Hq).
    now rewrite Hout.
  - destruct (q y) eqn:E; [|now apply IH].
    apply Hq in E. exfalso. apply Hy. rewrite E. now apply in_map.
Qed.


(** When every suffix parses, on a table with the identity columns, a row
    and a selected column, the reshape returns the observations in
    column-major order. *)
Lemma reshape_long_HDI_Ok (df : DataFrame) (indicators : dict string) :
  (forall c, In c hdi_id_vars -> In c (columns df)) ->
  rows df <> [] ->
  value_vars_of (columns df) indicators <> [] ->
  (forall v, In v (value_vars_of (columns df) indicators) ->
             PyStr.int (year_suffix v) <> None) ->
  reshape_long_HDI df indicators
  = Ok (range_indexed long_columns (column_major df indicators)).
Proof.
  intros Hid Hrows Hvv Hparse.
  rewrite reshape_long_HDI_steps by exact Hid.
  destruct (list_prod _ _) as [|p0 pairs'] eqn:Ep.
  { exfalso. destruct (value_vars_of (columns df) indicators) as [|v vv];
      [congruence|].
    unfold values in Ep. destruct (rows df) as [|r rs]; [congruence|].
    discriminate. }
  rewrite <- Ep.
  rewrite (collect_Ok _ (fun p => observation (columns df) indicators
                                              (fst p) (snd p))).
  - simpl. unfold column_major.
    now rewrite (flat_map_list_prod (observation (columns df) indicators)).
  - intros [v r] Hp. apply in_prod_iff in Hp as [Hv _].
    rewrite finish_row_melted. simpl.
    destruct (PyStr.int (year_suffix v)) eqn:E; [reflexivity|].
    now destruct (Hparse v Hv).
Qed.




(* ================================================================== *)
(** * Tables of one indicator *)

Lemma wb_keys_distinct (name : string) :
  ~ In name wb_keys -> distinct4 "Country" "ISO3" "Year" name.
Proof.
  intro H. unfold distinct4.
  repeat split; try reflexivity; apply String.eqb_neq; intro E; apply H;
    simpl; rewrite ?E; try rewrite <- E; tauto.
Qed.

Ltac use_distinct H :=
  destruct H as [?E [?E [?E [?E [?E [?E [?E [?E [?E [?E [?E ?E]]]]]]]]]]].

Ltac eqb_simpl :=
  repeat (simpl;
          repeat match goal with
                 | E : String.eqb _ _ = false |- _ => rewrite E
                 end;
          rewrite ?String.eqb_refl).

Lemma fold_left_fixed {A B : Type} (f : A -> B -> A) (l : list B) (a : A) :
  (forall b, In b l -> f a b = a) -> fold_left f l a = a.
Proof.
  induction l as [|b l IH]; simpl; intro H; [reflexivity|].
  rewrite (H b (or_introl eq_refl)). apply IH.
  intros b' Hb'. apply H. now right.
Qed.

(** The rows appended for the records of one indicator, and the frame built
    from them, for any four distinct labels. *)
Lemma frame_of_four (kc ki ky name : string) (A : Type)
  (c1 c2 c3 c4 : A -> cell) (l : list A) :
  distinct4 kc ki ky name ->
  l <> [] ->
  frame_of_records
    (map (fun x => dict_set (dict_set (dict_set (dict_set [] kc (c1 x))
                                                ki (c2 x)) ky (c3 x))
                            name (c4 x)) l)
  = range_indexed [kc; ki; ky; name]
                  (map (fun x => [c1 x; c2 x; c3 x; c4 x]) l).
Proof.
  intros Hd Hne. use_distinct Hd. unfold frame_of_records.
  assert (Hrow : forall x,
             dict_set (dict_set (dict_set (dict_set [] kc (c1 x)) ki (c2 x))
                                ky (c3 x)) name (c4 x)
             = [(kc, c1 x); (ki, c2 x); (ky, c3 x); (name, c4 x)]).
  { intro x. now eqb_simpl. }
  rewrite (map_ext _ _ Hrow).
  cbv zeta. set (cols := fold_left _ _ _).
  assert (Hcols : cols = [kc; ki; ky; name]).
  { subst cols. destruct l as [|x l]; [congruence|].
    eqb_simpl. apply fold_left_fixed. intros r Hr.
    apply in_map_iff in Hr as [x' [<- _]]. now eqb_simpl. }
  rewrite Hcols, !map_map. unfold range_indexed. rewrite !length_map.
  do 2 f_equal. apply map_ext. intro x. now eqb_simpl.
Qed.

(** The frame built from the records of one indicator. *)
Lemma wb_frame (name : string) (records : list wb_record) :
  ~ In name wb_keys ->
  records <> [] ->
  (forall rec, In rec records -> PyStr.int (date rec) <> None) ->
  (rows <- collect (wb_row name) records ;; Ok (frame_of_records rows))
  = Ok (range_indexed (wb_keys ++ [name]) (wb_table records)).
Proof.
  intros Hname Hne Hdate.
  rewrite (collect_Ok _
    (fun rec => dict_set
                  (dict_set
                     (dict_set
                        (dict_set [] "Country" (Str (country_value rec)))
                        "ISO3" (Str (wb_iso3 rec)))
                     "Year" (nth 2 (wb_key rec) NA))
                  name (wb_value rec))).
  - cbn [bind]. rewrite frame_of_four; auto.
    now apply wb_keys_distinct.
  - intros rec Hrec. unfold wb_row, wb_key, wb_value, wb_iso3.
    specialize (Hdate rec Hrec).
    destruct (PyStr.int (date rec)) as [y|]; [reflexivity|congruence].
Qed.

(* ================================================================== *)
(** * The outer merge on (Country, ISO3, Year) *)

Lemma sort_by_key_perm {A : Type} (key : A -> list cell) (l : list A) :
  Permutation (sort_by_key key l) l.
Proof.
  unfold sort_by_key.
  assert (Hins : forall x l', Permutation (insert_by_key key x l') (x :: l')).
  { intros x l'. induction l' as [|y l' IH]; simpl; [reflexivity|].
    destruct (key_leb (key y) (key x)); [|reflexivity].
    rewrite IH. apply perm_swap. }
  assert (Hfold : forall l', Permutation (fold_right (insert_by_key key) [] l') l').
  { induction l' as [|x l' IH]; simpl; [reflexivity|].
    rewrite Hins. now constructor. }
  rewrite Hfold. symmetry. apply Permutation_rev.
Qed.

Lemma filter_all {A : Type} (p : A -> bool) (l : list A) :
  (forall x, In x l -> p x = true) -> filter p l = l.
Proof.
  induction l as [|x l IH]; simpl; intro H; [reflexivity|].
  rewrite (H x (or_introl eq_refl)), IH; [reflexivity|].
  intros y Hy. apply H. now right.
Qed.

Lemma map_id_in {A : Type} (f : A -> A) (l : list A) :
  (forall x, In x l -> f x = x) -> map f l = l.
Proof.
  induction l as [|x l IH]; simpl; intro H; [reflexivity|].
  rewrite (H x (or_introl eq_refl)), IH; [reflexivity|].
  intros y Hy. apply H. now right.
Qed.

Lemma mem_false (c : string) (l : list string) :
  ~ In c l -> mem c l = false.
Proof.
  intro H. destruct (mem c l) eqn:E; [|reflexivity].
  apply mem_In in E. contradiction.
Qed.

Lemma length4 (r : list cell) :
  List.length r = 4 -> r = key3 r ++ [nth 3 r NA].
Proof.
  destruct r as [|a [|b [|c [|d [|e r]]]]]; simpl; try discriminate.
  reflexivity.
Qed.

Section MergeStep.

Variables (names : list string) (name : string).
Variables (vals T : list (list cell)).

Hypothesis Hnames : forall c, In c names -> ~ In c wb_keys.
Hypothesis Hname : ~ In name wb_keys.
Hypothesis Hfresh : ~ In name names.
Hypothesis HT : forall r, In r T -> List.length r = 4.

Lemma other_cells_wb (r : list cell) :
  List.length r = 4 ->
  other_cells (wb_keys ++ [name]) wb_keys r = [nth 3 r NA].
Proof.
  intro H. rewrite (length4 r H) at 1.
  pose proof (mem_false name wb_keys Hname) as Hm.
  unfold other_cells, key3, wb_keys in *. cbn [app combine filter fst snd].
  change (mem "Country" ["Country"; "ISO3"; "Year"]) with true.
  change (mem "ISO3" ["Country"; "ISO3"; "Year"]) with true.
  change (mem "Year" ["Country"; "ISO3"; "Year"]) with true.
  cbn [negb]. now rewrite Hm.
Qed.

Lemma left_shape (r : list cell) :
  map (fun c => if mem c wb_keys then cell_at (wb_keys ++ [name]) c r else NA)
      (wb_keys ++ names)
  = key3 r ++ map (fun _ => NA) names.
Proof.
  rewrite map_app. f_equal.
  apply map_ext_in. intros c Hc.
  now rewrite (mem_false c wb_keys (Hnames c Hc)).
Qed.

(** The merge of a joined frame with the frame of one more indicator. *)
Lemma merge_outer_wb :
  exists out,
    merge_outer (range_indexed (wb_keys ++ names) vals)
                (range_indexed (wb_keys ++ [name]) T) wb_keys
    = Ok (range_indexed (wb_keys ++ names ++ [name]) out)
    /\ Permutation out (matched_rows vals T ++ right_only_rows names vals T).
Proof.
  destruct (wb_keys_distinct name Hname) as
    [_ [_ [E1 [_ [_ [E2 [_ [_ [E3 [E4 [E5 E6]]]]]]]]]]].
  assert (Hmem : forall c, In c names -> mem c wb_keys = false).
  { intros c Hc. apply mem_false. now apply Hnames. }
  unfold merge_outer.
  change (first_missing wb_keys (columns (range_indexed (wb_keys ++ [name]) T)))
    with (@None string).
  change (first_missing wb_keys (columns (range_indexed (wb_keys ++ names) vals)))
    with (@None string).
  cbv zeta. rewrite !values_range_indexed.
  change (columns (range_indexed (wb_keys ++ names) vals)) with (wb_keys ++ names).
  change (columns (range_indexed (wb_keys ++ [name]) T)) with (wb_keys ++ [name]).
  assert (Hlo : other_cols (wb_keys ++ names) wb_keys = names).
  { unfold other_cols. rewrite filter_app.
    change (filter (fun c => negb (mem c wb_keys)) wb_keys) with (@nil string).
    apply filter_all. intros c Hc. now rewrite (Hmem c Hc). }
  assert (Hro : other_cols (wb_keys ++ [name]) wb_keys = [name]).
  { unfold other_cols. rewrite filter_app.
    change (filter (fun c => negb (mem c wb_keys)) wb_keys) with (@nil string).
    cbn [filter app]. now rewrite (mem_false name wb_keys Hname). }
  rewrite Hlo, Hro.
  assert (Hlc : map (fun c => if negb (mem c wb_keys) && mem c [name]
                              then (c ++ "_x")%string else c)
                    (wb_keys ++ names) = wb_keys ++ names).
  { apply map_id_in. intros c Hc. apply in_app_iff in Hc as [Hc|Hc].
    - apply mem_In in Hc. now rewrite Hc.
    - replace (mem c [name]) with false; [now rewrite andb_false_r|].
      symmetry. apply mem_false. intros [<-|[]]. contradiction. }
  rewrite Hlc.
  assert (Hrn : map (fun c => if mem c names then (c ++ "_y")%string else c)
                    [name] = [name]).
  { simpl. now rewrite (mem_false name names Hfresh). }
  rewrite Hrn.
  eexists. split.
  - rewrite <- app_assoc. reflexivity.
  - rewrite sort_by_key_perm. apply Permutation_app.
    + apply Permutation_refl'. unfold matched_rows.
      apply flat_map_ext_in. intros l _.
      change (key_cells (wb_keys ++ names) wb_keys l) with (key3 l).
      rewrite (filter_ext _ (fun r => key_eqb (key3 r) (key3 l))) by reflexivity.
      destruct (filter _ T) as [|m ms] eqn:Ef; [reflexivity|].
      apply map_ext_in. intros r Hr. f_equal.
      assert (HrT : In r T).
      { assert (Hin : In r (filter (fun r => key_eqb (key3 r) (key3 l)) T))
          by (rewrite Ef; exact Hr).
        now apply filter_In in Hin. }
      now apply other_cells_wb, HT.
    + apply Permutation_refl'. unfold right_only_rows.
      rewrite (filter_ext _ (fun r => negb (existsb (fun l => key_eqb (key3 r) (key3 l)) vals)))
        by reflexivity.
      apply map_ext_in. intros r Hr. apply filter_In in Hr as [HrT _].
      rewrite left_shape, (other_cells_wb r (HT r HrT)).
      now rewrite <- app_assoc.
Qed.

End MergeStep.

(* ================================================================== *)
(** * The invariant of the join *)

Lemma key3_app (l x : list cell) :
  3 <= List.length l -> key3 (l ++ x) = key3 l.
Proof.
  destruct l as [|a [|b [|c l]]]; simpl; try lia. reflexivity.
Qed.

Lemma has_key_In (T : list (list cell)) (k : list cell) :
  has_key T k = true <-> In k (map key3 T).
Proof.
  unfold has_key. rewrite existsb_exists, in_map_iff. split.
  - intros [r [Hr E]]. apply key_eqb_eq in E. now exists r.
  - intros [r [E Hr]]. exists r. split; [exact Hr|now apply key_eqb_eq].
Qed.

Lemma lookup_value_absent (T : list (list cell)) (k : list cell) :
  has_key T k = false -> lookup_value T k = NA.
Proof.
  unfold has_key, lookup_value.
  induction T as [|r T IH]; cbn [existsb find]; [reflexivity|].
  destruct (key_eqb (key3 r) k); cbn [orb]; intro H;
    [discriminate H|exact (IH H)].
Qed.

Lemma filter_key_absent (T : list (list cell)) (k : list cell) :
  ~ In k (map key3 T) -> filter (fun r => key_eqb (key3 r) k) T = [].
Proof.
  induction T as [|r T IH]; cbn [filter map]; [reflexivity|]. intro H.
  destruct (key_eqb (key3 r) k) eqn:E.
  - apply key_eqb_eq in E. exfalso. apply H. now left.
  - apply IH. intro Hin. apply H. now right.
Qed.

Lemma filter_key_find (T : list (list cell)) (k : list cell) :
  NoDup (map key3 T) ->
  filter (fun r => key_eqb (key3 r) k) T
  = match find (fun r => key_eqb (key3 r) k) T with
    | Some r => [r]
    | None => []
    end.
Proof.
  induction T as [|r T IH]; cbn [filter find map]; [reflexivity|]. intro H.
  apply NoDup_cons_iff in H as [Hr H].
  destruct (key_eqb (key3 r) k) eqn:E; [|now apply IH].
  apply key_eqb_eq in E. rewrite <- E. now rewrite filter_key_absent.
Qed.

Lemma find_key_In (T : list (list cell)) (r : list cell) :
  NoDup (map key3 T) -> In r T ->
  find (fun r' => key_eqb (key3 r') (key3 r)) T = Some r.
Proof.
  induction T as [|r' T IH]; cbn [find map In]; [intros _ []|]. intros H Hin.
  apply NoDup_cons_iff in H as [Hr' H].
  destruct Hin as [->|Hin].
  - now rewrite key_eqb_refl.
  - destruct (key_eqb (key3 r') (key3 r)) eqn:E; [|now apply IH].
    apply key_eqb_eq in E. exfalso. apply Hr'. rewrite E. now apply in_map.
Qed.

Lemma flat_map_singleton {A B : Type} (f : A -> list B) (g : A -> B)
  (l : list A) :
  (forall x, f x = [g x]) -> flat_map f l = map g l.
Proof.
  intro H. induction l as [|x l IH]; simpl; [reflexivity|].
  now rewrite H, IH.
Qed.

Lemma matched_rows_lookup (vals T : list (list cell)) :
  NoDup (map key3 T) ->
  matched_rows vals T = map (fun l => l ++ [lookup_value T (key3 l)]) vals.
Proof.
  intro H. unfold matched_rows, lookup_value.
  apply flat_map_singleton. intro l.
  rewrite (filter_key_find T (key3 l) H).
  now destruct (find _ T).
Qed.

Lemma joined_length (names : list string) (tabs : list (list (list cell)))
  (vals : list (list cell)) (r : list cell) :
  joined names tabs vals -> In r vals ->
  List.length r = 3 + List.length names.
Proof.
  intros [Hlen [_ [Hrow _]]] Hr. rewrite (Hrow r Hr) at 1.
  rewrite length_app, length_map. simpl. now rewrite Hlen.
Qed.

Lemma not_in_keys (vals : list (list cell)) (r : list cell) :
  negb (existsb (fun l => key_eqb (key3 r) (key3 l)) vals) = true
  <-> ~ In (key3 r) (map key3 vals).
Proof.
  rewrite negb_true_iff, <- not_true_iff_false, existsb_exists, in_map_iff.
  split; intros H [l Hl]; apply H; exists l.
  - destruct Hl as [E Hl]. split; [exact Hl|]. apply key_eqb_eq. now symmetry.
  - destruct Hl as [Hl E]. apply key_eqb_eq in E. now split.
Qed.

Lemma joined_perm (names : list string) (tabs : list (list (list cell)))
  (vals vals' : list (list cell)) :
  Permutation vals vals' -> joined names tabs vals' -> joined names tabs vals.
Proof.
  intros Hp [Hlen [Hnd [Hrow Hkeys]]]. repeat split.
  - exact Hlen.
  - apply (Permutation_NoDup (l := map key3 vals')); [|exact Hnd].
    apply Permutation_map. now symmetry.
  - intros r Hr. apply Hrow. now apply (Permutation_in _ Hp).
  - intro Hk. apply Hkeys.
    apply (Permutation_in _ (Permutation_map key3 Hp) Hk).
  - intro Hk. apply Hkeys in Hk.
    apply (Permutation_in _ (Permutation_map key3 (Permutation_sym Hp)) Hk).
Qed.

Lemma NoDup_map_filter {K R : Type} (key : R -> K) (keep : R -> bool)
  (rs : list R) (Hnd : NoDup (map key rs)) :
  NoDup (map key (filter keep rs)).
Proof.
  induction rs as [|x rs IH]; simpl; [constructor|].
  simpl in Hnd. apply NoDup_cons_iff in Hnd as [Hx Hnd].
  destruct (keep x); simpl; [|now apply IH].
  constructor; [|now apply IH].
  intro Hin. apply Hx. apply in_map_iff in Hin as [y [E Hy]].
  apply filter_In in Hy as [Hy _]. rewrite <- E. now apply in_map.
Qed.

Lemma joined_base (name : string) (T : list (list cell)) :
  NoDup (map key3 T) ->
  (forall r, In r T -> List.length r = 4) ->
  joined [name] [T] T.
Proof.
  intros Hnd HT. repeat split; auto.
  - intros r Hr. simpl. unfold lookup_value.
    rewrite (find_key_In T r Hnd Hr). now apply length4, HT.
  - intro Hk. exists T. split; [now left|now apply has_key_In].
  - intros [T' [[<-|[]] Hk]]. now apply has_key_In.
Qed.

Lemma joined_step (names : list string) (name : string)
  (tabs : list (list (list cell))) (vals T : list (list cell)) :
  joined names tabs vals ->
  NoDup (map key3 T) ->
  (forall r, In r T -> List.length r = 4) ->
  joined (names ++ [name]) (tabs ++ [T])
         (matched_rows vals T ++ right_only_rows names vals T).
Proof.
  intros J Hnd HT. pose proof J as [Hlen [Hvnd [Hrow Hkeys]]].
  rewrite (matched_rows_lookup vals T Hnd).
  assert (Hk1 : map key3 (map (fun l => l ++ [lookup_value T (key3 l)]) vals)
                = map key3 vals).
  { rewrite map_map. apply map_ext_in. intros l Hl. apply key3_app.
    rewrite (joined_length _ _ _ _ J Hl). lia. }
  assert (Hk2 : map key3 (right_only_rows names vals T)
                = map key3 (filter (fun r => negb (existsb
                     (fun l => key_eqb (key3 r) (key3 l)) vals)) T)).
  { unfold right_only_rows. rewrite map_map. now apply map_ext. }
  repeat split.
  - rewrite !length_app. simpl. now rewrite Hlen.
  - rewrite map_app, Hk1, Hk2. apply NoDup_app; auto.
    + now apply NoDup_map_filter.
    + intros k Hk Hk'. apply in_map_iff in Hk' as [r [<- Hr]].
      apply filter_In in Hr as [_ Hr]. now apply not_in_keys in Hr.
  - intros r Hr. apply in_app_iff in Hr as [Hr|Hr].
    + apply in_map_iff in Hr as [l [<- Hl]].
      rewrite key3_app by (rewrite (joined_length _ _ _ _ J Hl); lia).
      rewrite map_app, app_assoc, <- (Hrow l Hl). reflexivity.
    + unfold right_only_rows in Hr. apply in_map_iff in Hr as [t [<- Ht]].
      apply filter_In in Ht as [HtT Ht]. apply not_in_keys in Ht.
      change (key3 (key3 t ++ map (fun _ => NA) names ++ [nth 3 t NA]))
        with (key3 t).
      rewrite map_app. simpl. unfold lookup_value at 2.
      rewrite (find_key_In T t Hnd HtT).
      assert (Hmap : forall (ns : list string) (ts : list (list (list cell))),
                 List.length ns = List.length ts ->
                 (forall T', In T' ts -> has_key T' (key3 t) = false) ->
                 map (fun _ => NA) ns
                 = map (fun T' => lookup_value T' (key3 t)) ts).
      { induction ns as [|n ns IHn]; intros [|T' ts]; simpl; try discriminate;
          auto.
        intros Hl Hno. injection Hl as Hl.
        rewrite lookup_value_absent by (apply Hno; now left).
        f_equal. apply IHn; auto. }
      rewrite <- (Hmap names tabs Hlen); [reflexivity|]. intros T' HT'.
      destruct (has_key T' (key3 t)) eqn:E; [|reflexivity].
      exfalso. apply Ht. apply Hkeys. now exists T'.
  - rewrite map_app, Hk1, Hk2, in_app_iff. intros [Hk|Hk].
    + apply Hkeys in Hk as [T' [HT' Hk]]. exists T'. split; [|exact Hk].
      apply in_app_iff. now left.
    + exists T. split; [apply in_app_iff; right; now left|].
      apply has_key_In. apply in_map_iff in Hk as [r [<- Hr]].
      apply filter_In in Hr as [Hr _]. now apply in_map.
  - rewrite map_app, Hk1, Hk2, in_app_iff.
    intros [T' [HT' Hk]]. apply in_app_iff in HT' as [HT'|[<-|[]]].
    + left. apply Hkeys. now exists T'.
    + destruct (in_dec (list_eq_dec
                 (fun a b : cell => ltac:(decide equality;
                    [apply Z.eq_dec|apply string_dec])))
                 k (map key3 vals)) as [Hin|Hout]; [now left|right].
      apply has_key_In in Hk. apply in_map_iff in Hk as [r [<- Hr]].
      apply in_map. apply filter_In. split; [exact Hr|].
      now apply not_in_keys.
Qed.

(* ================================================================== *)
(** * The merged World Bank table *)

Lemma key3_wb_table (records : list wb_record) :
  map key3 (wb_table records) = map wb_key records.
Proof. unfold wb_table. rewrite map_map. now apply map_ext. Qed.

Lemma wb_table_length (records : list wb_record) (r : list cell) :
  In r (wb_table records) -> List.length r = 4.
Proof. unfold wb_table. intro H. now apply in_map_iff in H as [rec [<- _]]. Qed.

Lemma cell_at_skip (pre cols : list string) (k vs : list cell) (c : string) :
  ~ In c pre -> List.length pre = List.length k ->
  cell_at (pre ++ cols) c (k ++ vs) = cell_at cols c vs.
Proof.
  unfold cell_at. revert k. induction pre as [|p pre IH]; intros [|x k];
    simpl; try discriminate; auto.
  intros Hc Hlen. injection Hlen as Hlen.
  destruct (String.eqb_spec p c) as [->|Hne]; [exfalso; apply Hc; now left|].
  assert (Hc' : ~ In c pre) by (intro; apply Hc; now right).
  specialize (IH k Hc' Hlen).
  destruct (position c (pre ++ cols)), (position c cols); simpl; auto.
Qed.

Lemma cell_at_map {A : Type} (f : A -> string) (g : A -> cell) (l : list A)
  (x : A) :
  NoDup (map f l) -> In x l -> cell_at (map f l) (f x) (map g l) = g x.
Proof.
  unfold cell_at. induction l as [|y l IH]; simpl; [intros _ []|].
  intros Hnd Hin. apply NoDup_cons_iff in Hnd as [Hy Hnd].
  destruct Hin as [->|Hin].
  - now rewrite String.eqb_refl.
  - destruct (String.eqb_spec (f y) (f x)) as [E|Hne].
    + exfalso. apply Hy. rewrite E. now apply in_map.
    + specialize (IH Hnd Hin).
      destruct (position (f x) (map f l)); simpl; auto.
Qed.

(** Reading every column of a row, in column order, gives the row. *)
Lemma select_all_cells (cols : list string) (r : list cell) :
  NoDup cols -> List.length r = List.length cols ->
  map (fun c => cell_at cols c r) cols = r.
Proof.
  revert r. induction cols as [|c cols IH]; intros [|x r]; simpl;
    try discriminate; auto.
  intros Hnd Hlen. injection Hlen as Hlen.
  apply NoDup_cons_iff in Hnd as [Hc Hnd].
  unfold cell_at at 1. simpl. rewrite String.eqb_refl. f_equal.
  transitivity (map (fun c => cell_at cols c r) cols); [|now apply IH].
  apply map_ext_in. intros c' Hc'.
  unfold cell_at. simpl.
  destruct (String.eqb_spec c c') as [->|Hne]; [contradiction|].
  now destruct (position c' cols).
Qed.

Section WorldBank.

Variable source : string -> str_or_list -> list wb_record.
Variable countries : str_or_list.

Local Abbreviation frame_of := (wb_frame_of source countries).
Local Abbreviation table_of := (wb_table_of source countries).
Local Abbreviation well_formed := (wb_well_formed source countries).

Lemma all_data_frames (indicators : dict string) :
  (forall kv, In kv indicators -> well_formed kv) ->
  collect (fun kv =>
             rows <- collect (wb_row (snd kv)) (source (fst kv) countries) ;;
             Ok (frame_of_records rows))
          indicators
  = Ok (map frame_of indicators).
Proof.
  intro H. apply collect_Ok. intros kv Hkv.
  destruct (H kv Hkv) as [H1 [H2 [H3 _]]]. now apply wb_frame.
Qed.

Lemma merge_all_joined (rest : dict string) :
  forall (names : list string) (tabs : list (list (list cell)))
         (vals : list (list cell)),
    joined names tabs vals ->
    (forall c, In c names -> ~ In c wb_keys) ->
    NoDup (names ++ map snd rest) ->
    (forall kv, In kv rest -> well_formed kv) ->
    exists out,
      merge_all (range_indexed (wb_keys ++ names) vals) (map frame_of rest)
      = Ok (range_indexed (wb_keys ++ names ++ map snd rest) out)
      /\ joined (names ++ map snd rest) (tabs ++ map table_of rest) out.
Proof.
  unfold merge_all.
  induction rest as [|kv rest IH]; intros names tabs vals J Hnames Hnd Hwf.
  - exists vals. simpl. now rewrite !app_nil_r.
  - destruct (Hwf kv (or_introl eq_refl)) as [H1 [_ [_ H4]]].
    assert (Hfresh : ~ In (snd kv) names).
    { intro Hin. simpl in Hnd. apply NoDup_remove_2 in Hnd. apply Hnd.
      apply in_app_iff. now left. }
    destruct (merge_outer_wb names (snd kv) vals (table_of kv)
                Hnames H1 Hfresh (wb_table_length _))
      as [out1 [E1 P1]].
    assert (J1 : joined (names ++ [snd kv]) (tabs ++ [table_of kv]) out1).
    { apply (joined_perm _ _ _ _ P1). apply joined_step; auto.
      - unfold wb_table_of. now rewrite key3_wb_table.
      - apply wb_table_length. }
    destruct (IH (names ++ [snd kv]) (tabs ++ [table_of kv]) out1 J1)
      as [out [E J']].
    + intros c Hc. apply in_app_iff in Hc as [Hc|[<-|[]]]; auto.
    + rewrite <- app_assoc. exact Hnd.
    + intros kv' Hkv'. apply Hwf. now right.
    + exists out. cbn [map fold_left bind].
      change (frame_of kv)
        with (range_indexed (wb_keys ++ [snd kv]) (table_of kv)).
      rewrite E1.
      rewrite <- !app_assoc in E, J'. rewrite <- (app_assoc tabs) in J'.
      cbn [app] in E, J'. now split.
Qed.

Lemma where_col_year (names : list string) (rs : list (nat * list cell))
  (test : cell -> bool) :
  where_col (mkDF (wb_keys ++ names) rs) "Year" test
  = Ok (mkDF (wb_keys ++ names)
             (filter (fun r => test (nth 2 (snd r) NA)) rs)).
Proof. reflexivity. Qed.

Lemma filter_filter {A : Type} (p q : A -> bool) (l : list A) :
  filter p (filter q l) = filter (fun x => q x && p x) l.
Proof.
  induction l as [|x l IH]; simpl; [reflexivity|].
  destruct (q x); simpl; [|exact IH]. destruct (p x); now rewrite IH.
Qed.

Lemma map_snd_filter {A B : Type} (p : B -> bool) (l : list (A * B)) :
  map snd (filter (fun r => p (snd r)) l) = filter p (map snd l).
Proof.
  induction l as [|x l IH]; simpl; [reflexivity|].
  destruct (p (snd x)); simpl; now rewrite IH.
Qed.

(** The year filters of [get_data_WB] on a merged frame. *)
Lemma year_filters (names : list string) (rs : list (nat * list cell))
  (start_year end_year : option Z) :
  (df <- if_not_None start_year (mkDF (wb_keys ++ names) rs)
           (fun y => where_col (mkDF (wb_keys ++ names) rs) "Year" (year_ge y)) ;;
   if_not_None end_year df (fun y => where_col df "Year" (year_le y)))
  = Ok (mkDF (wb_keys ++ names)
             (filter (fun r => within start_year end_year (snd r)) rs)).
Proof.
  unfold within, if_not_None.
  destruct start_year as [y1|], end_year as [y2|];
    rewrite ?where_col_year; cbn [bind]; rewrite ?where_col_year.
  - now rewrite filter_filter.
  - do 2 f_equal. apply filter_ext. intro r. now rewrite andb_true_r.
  - reflexivity.
  - do 2 f_equal. symmetry. now apply filter_all.
Qed.

Lemma first_missing_self (cols : list string) : first_missing cols cols = None.
Proof. now apply first_missing_None. Qed.

(** The final selection of [get_data_WB] leaves a merged frame as it is. *)
Lemma select_merged (cols : list string) (rs : list (nat * list cell)) :
  NoDup cols ->
  (forall r, In r rs -> List.length (snd r) = List.length cols) ->
  select (mkDF cols rs) (filter (fun c => mem c cols) cols) = Ok (mkDF cols rs).
Proof.
  intros Hnd Hlen.
  rewrite (filter_all (fun c => mem c cols) cols)
    by (intros c Hc; now apply mem_In).
  unfold select; simpl. rewrite first_missing_self. do 2 f_equal.
  apply map_id_in. intros [i r] Hr. simpl. f_equal.
  apply select_all_cells; auto. exact (Hlen (i, r) Hr).
Qed.

(** C5, as the code has it: when every indicator has a display name of its
    own, none of them a key label, and its fetch returns at least one
    record, every date an integer and no country-year twice, then
    [get_data_WB] with two or more indicators returns a table whose
    columns are Country, ISO3, Year and the display names, in which a
    country-year (within the year bounds) that the records of indicator A
    have and those of indicator B lack fills exactly one row, with the
    value of A in the column of A and a missing value in the column of
    B. *)
Theorem get_data_WB_outer_join (indicators : dict string)
  (start_year end_year : option Z) :
  2 <= List.length indicators ->
  NoDup (map snd indicators) ->
  (forall kv, In kv indicators -> well_formed kv) ->
  exists df,
    get_data_WB source indicators countries start_year end_year = Ok df
    /\ columns df = wb_keys ++ map snd indicators
    /\ forall codeA nameA codeB nameB rec,
         In (codeA, nameA) indicators ->
         In (codeB, nameB) indicators ->
         In rec (source codeA countries) ->
         ~ In (wb_key rec) (map wb_key (source codeB countries)) ->
         within start_year end_year (wb_key rec) = true ->
         exists r,
           rows_with_key df (wb_key rec) = [r]
           /\ cell_at (columns df) nameA r = wb_value rec
           /\ cell_at (columns df) nameB r = NA.
Proof.
  intros Htwo Hnd Hwf.
  destruct indicators as [|kv1 rest] eqn:Ei; [simpl in Htwo; lia|].
  rewrite <- Ei in *.
  assert (Hkeys : forall c, In c (map snd indicators) -> ~ In c wb_keys).
  { intros c Hc. apply in_map_iff in Hc as [kv [<- Hkv]].
    now destruct (Hwf kv Hkv). }
  destruct (merge_all_joined rest [snd kv1] [table_of kv1] (table_of kv1))
    as [out [Emerge J]].
  { destruct (Hwf kv1) as [_ [_ [_ H4]]]; [rewrite Ei; now left|].
    apply joined_base.
    - unfold wb_table_of. now rewrite key3_wb_table.
    - apply wb_table_length. }
  { intros c [<-|[]]. apply Hkeys. rewrite Ei. now left. }
  { rewrite Ei in Hnd. exact Hnd. }
  { intros kv Hkv. apply Hwf. rewrite Ei. now right. }
  change ([snd kv1] ++ map snd rest) with (map snd (kv1 :: rest)) in *.
  change ([table_of kv1] ++ map table_of rest)
    with (map table_of (kv1 :: rest)) in *.
  rewrite <- Ei in *.
  set (cols := wb_keys ++ map snd indicators) in *.
  assert (Hcols : NoDup cols).
  { unfold cols. apply NoDup_app; auto.
    - unfold wb_keys. repeat constructor; simpl; intuition discriminate.
    - intros c Hc Hc'. now apply (Hkeys c Hc'). }
  assert (Hrowlen : forall r, In r out -> List.length r = List.length cols).
  { intros r Hr. rewrite (joined_length _ _ _ _ J Hr).
    unfold cols. now rewrite length_app. }
  set (rs := filter (fun r => within start_year end_year (snd r))
                    (rows (range_indexed cols out))).
  assert (Hres : get_data_WB source indicators countries start_year end_year
                 = Ok (mkDF cols rs)).
  { unfold get_data_WB. rewrite (all_data_frames indicators Hwf).
    cbn [bind]. rewrite Ei at 1. cbn [map].
    change (range_indexed (wb_keys ++ [snd kv1]) (table_of kv1))
      with (frame_of kv1) in Emerge.
    rewrite Emerge. cbn [bind].
    pose proof (year_filters (map snd indicators)
                  (rows (range_indexed cols out)) start_year end_year) as Hy.
    fold cols in Hy. fold rs in Hy.
    change (mkDF cols (rows (range_indexed cols out)))
      with (range_indexed cols out) in Hy.
    match goal with
    | |- bind ?A (fun df => bind (@?B df) ?K) = _ =>
        rewrite <- (bind_bind A B K)
    end.
    rewrite Hy. cbn [bind].
    change (columns (mkDF cols rs)) with cols. fold cols.
    rewrite select_merged; auto.
    intros r Hr. apply filter_In in Hr as [Hr _].
    apply Hrowlen. unfold range_indexed in Hr. simpl in Hr.
    apply (in_map snd) in Hr. now rewrite snd_combine_seq in Hr. }
  exists (mkDF cols rs). split; [exact Hres|]. split; [reflexivity|].
  intros codeA nameA codeB nameB rec HA HB Hrec Habs Hin.
  destruct J as [Jlen [Jnd [Jrow Jkeys]]].
  set (k := wb_key rec) in *.
  assert (HTA : In (k ++ [wb_value rec]) (table_of (codeA, nameA))).
  { unfold wb_table_of, wb_table. simpl.
    apply in_map_iff. now exists rec. }
  assert (Hk : In k (map key3 out)).
  { apply Jkeys. exists (table_of (codeA, nameA)). split.
    - now apply in_map.
    - apply has_key_In. apply in_map_iff.
      exists (k ++ [wb_value rec]). now split. }
  apply in_map_iff in Hk as [r [Ekr Hr]].
  exists r. split; [|split].
  - unfold rows_with_key, values. simpl. unfold rs.
    rewrite map_snd_filter.
    change (map snd (rows (range_indexed cols out)))
      with (values (range_indexed cols out)).
    rewrite values_range_indexed, filter_filter.
    rewrite (filter_ext _ (fun x => key_eqb (key3 x) (key3 r)
                                    && within start_year end_year x)).
    2: { intro x. rewrite Ekr. apply andb_comm. }
    rewrite <- filter_filter.
    rewrite (filter_unique_key key3 _ out r); auto.
    + simpl. change (within start_year end_year r)
        with (within start_year end_year (key3 r)).
      now rewrite Ekr, Hin.
    + intro y. apply key_eqb_eq.
  - simpl. unfold cols. rewrite (Jrow r Hr), Ekr.
    rewrite cell_at_skip; [|apply Hkeys; apply in_map_iff;
                            now exists (codeA, nameA)|reflexivity].
    rewrite map_map.
    pose proof (cell_at_map snd (fun kv => lookup_value (table_of kv) k)
                  indicators (codeA, nameA) Hnd HA) as Hc.
    cbn [snd] in Hc. rewrite Hc.
    destruct (Hwf _ HA) as [_ [_ [_ H4]]].
    assert (F : find (fun r' => key_eqb (key3 r') (key3 (k ++ [wb_value rec])))
                     (table_of (codeA, nameA))
                = Some (k ++ [wb_value rec])).
    { apply find_key_In; auto.
      unfold wb_table_of. simpl. now rewrite key3_wb_table. }
    change (key3 (k ++ [wb_value rec])) with k in F.
    unfold lookup_value. now rewrite F.
  - simpl. unfold cols. rewrite (Jrow r Hr), Ekr.
    rewrite cell_at_skip; [|apply Hkeys; apply in_map_iff;
                            now exists (codeB, nameB)|reflexivity].
    rewrite map_map.
    pose proof (cell_at_map snd (fun kv => lookup_value (table_of kv) k)
                  indicators (codeB, nameB) Hnd HB) as Hc.
    cbn [snd] in Hc. rewrite Hc.
    apply lookup_value_absent.
    destruct (has_key (table_of (codeB, nameB)) k) eqn:E; [|reflexivity].
    exfalso. apply Habs. apply has_key_In in E.
    unfold wb_table_of in E. simpl in E. now rewrite key3_wb_table in E.
Qed.

End WorldBank.

Lemma get_data_WB_outer_join_witness :
  exists df,
    get_data_WB Examples.wb_source [("A", "GDP"); ("B", "Pop")] (One "all")
                None None = Ok df
    /\ columns df = ["Country"; "ISO3"; "Year"; "GDP"; "Pop"]
    /\ exists r,
         rows_with_key df [Str "Chad"; Str "TCD"; Int 2010] = [r]
         /\ cell_at (columns df) "GDP" r = Int 11
         /\ cell_at (columns df) "Pop" r = NA.
Proof.
  destruct (get_data_WB_outer_join Examples.wb_source (One "all")
              [("A", "GDP"); ("B", "Pop")] None None)
    as [df [H1 [H2 H3]]].
  - simpl. lia.
  - repeat constructor; simpl; intuition discriminate.
  - intros kv [<-|[<-|[]]]; unfold wb_well_formed; simpl;
      (split; [intuition discriminate|]);
      (split; [discriminate|]);
      (split; [intros rec Hrec; intuition (subst; discriminate)|]);
      repeat constructor; simpl; intuition discriminate.
  - exists df. split; [exact H1|]. split; [exact H2|].
    apply (H3 "A" "GDP" "B" "Pop" (Examples.chad "2010" 11)).
    + simpl. tauto.
    + simpl. tauto.
    + simpl. tauto.
    + simpl. intuition discriminate.
    + reflexivity.
Defined.

(** C5, as stated, fails: Chad in 2010 is in the records of indicator A
    and in none of indicator C, which has no record at all; the merge
    raises a KeyError and the country-year is returned in no row. *)
Lemma get_data_WB_indicator_without_records :
  In (Examples.chad "2010" 11) (Examples.wb_source "A" (One "all"))
  /\ ~ In (wb_key (Examples.chad "2010" 11))
          (map wb_key (Examples.wb_source "C" (One "all")))
  /\ get_data_WB Examples.wb_source [("A", "GDP"); ("C", "Pop")] (One "all")
                 None None
     = Err (KeyError "Country").
Proof.
  split; [simpl; tauto|]. split; [simpl; tauto|reflexivity].
Qed.

(* ================================================================== *)
(** * Further properties: normalisation and the fetch loop *)

(** X1: whatever the labels of a table, after normalisation they satisfy
    the invariant of normalised tables: lower case, no white space at
    either end, no space. *)
Theorem normalize_columns_normalized (df : DataFrame) :
  normalized_table (normalize_columns df) = true.
Proof.
  unfold normalized_table, normalize_columns; simpl.
  apply forallb_forall. intros c Hc.
  apply in_map_iff in Hc as [c0 [<- _]]. apply normalize_name_normalized.
Qed.

Lemma fetch_loop_http_error (rs : list response) (r : response)
  (rest : list response) :
  forallb status_ok rs = true ->
  forallb has_next rs = true ->
  is_http_error (status r) = true ->
  forall base_url params all_records sent,
    fetch_loop (rs ++ r :: rest) base_url params all_records sent =
    Some (sent ++ mkRequest base_url params
                :: map (fun p => mkRequest (next_url p) []) rs,
          Err (HTTPError (status r))).
Proof.
  induction rs as [|p rs IH]; simpl; intros Hok Hnext Herr base_url ps acc sent.
  - now rewrite Herr.
  - apply andb_true_iff in Hok as [Hp Hok].
    apply andb_true_iff in Hnext as [Hn Hnext].
    unfold status_ok in Hp. apply negb_true_iff in Hp. rewrite Hp.
    unfold has_next in Hn. unfold next_url at 1.
    destruct (next (json p)) as [u|]; [|discriminate].
    rewrite Hn, (IH Hok Hnext Herr).
    rewrite <- !app_assoc. reflexivity.
Qed.

(** X2: a response with a 4xx or 5xx status, met after pages that each
    name a next page, aborts the fetch: [get_data_GIDD] raises the HTTP
    error of that response and returns no table, whatever records the
    pages before it held; the requests sent are those up to the failing
    one. *)
Theorem get_data_GIDD_http_error (to_numeric : string -> option Z)
  (range_columns : bool)
  (rs : list response) (r : response) (rest : list response)
  (client_id : string) (limit : Z)
  (iso3 : option str_or_list) (start_year end_year : option Z)
  (hazard_category_name hazard_type_name : option string)
  (indicators : indicator_spec) :
  forallb status_ok rs = true ->
  forallb has_next rs = true ->
  is_http_error (status r) = true ->
  get_data_GIDD to_numeric range_columns (rs ++ r :: rest) client_id limit iso3 start_year
                end_year hazard_category_name hazard_type_name indicators
  = Some (mkRequest gidd_url [("client_id", Str client_id); ("limit", Int limit)]
            :: map (fun p => mkRequest (next_url p) []) rs,
          Err (HTTPError (status r))).
Proof.
  intros Hok Hnext Herr. unfold get_data_GIDD, fetch_all_records.
  now rewrite fetch_loop_http_error.
Qed.

Lemma get_data_GIDD_http_error_witness :
  get_data_GIDD PyStr.int true
    [Examples.gidd_page_1; mkResponse 503 (mkPage None None)] "id" 500
    None None None None None IndNone
  = Some ([mkRequest gidd_url [("client_id", Str "id"); ("limit", Int 500)];
           mkRequest "https://example.org/p2" []],
          Err (HTTPError 503)).
Proof.
  apply (get_data_GIDD_http_error PyStr.int true [Examples.gidd_page_1]
           (mkResponse 503 (mkPage None None)) [] "id" 500);
    reflexivity.
Defined.

Lemma fetch_loop_unbounded (rs : list response) :
  forallb status_ok rs = true ->
  forallb has_next rs = true ->
  forall base_url params all_records sent,
    fetch_loop rs base_url params all_records sent = None.
Proof.
  induction rs as [|p rs IH]; simpl; intros Hok Hnext base_url ps acc sent.
  - reflexivity.
  - apply andb_true_iff in Hok as [Hp Hok].
    apply andb_true_iff in Hnext as [Hn Hnext].
    unfold status_ok in Hp. apply negb_true_iff in Hp. rewrite Hp.
    unfold has_next in Hn.
    destruct (next (json p)) as [u|]; [|discriminate].
    rewrite Hn. now apply IH.
Qed.

(** X3: the fetch loop has no bound of its own: as long as every page
    served has a success status and names a next page, it asks for one
    more page, and [get_data_GIDD] returns nothing. *)
Theorem get_data_GIDD_unbounded (to_numeric : string -> option Z)
  (range_columns : bool)
  (rs : list response) (client_id : string) (limit : Z)
  (iso3 : option str_or_list) (start_year end_year : option Z)
  (hazard_category_name hazard_type_name : option string)
  (indicators : indicator_spec) :
  forallb status_ok rs = true ->
  forallb has_next rs = true ->
  get_data_GIDD to_numeric range_columns rs client_id limit iso3 start_year end_year
                hazard_category_name hazard_type_name indicators
  = None.
Proof.
  intros Hok Hnext. unfold get_data_GIDD, fetch_all_records.
  now rewrite fetch_loop_unbounded.
Qed.

Lemma get_data_GIDD_unbounded_witness :
  get_data_GIDD PyStr.int true [Examples.gidd_page_1; Examples.gidd_page_1]
                "id" 500 None None None None None IndNone
  = None.
Proof.
  apply (get_data_GIDD_unbounded PyStr.int true
           [Examples.gidd_page_1; Examples.gidd_page_1]); reflexivity.
Defined.

(** X4: the loop tests the truth value of [next]: a page whose [next] is
    the empty text ends the fetch like a page without [next], and the
    records gathered are those of the pages up to it, in page order. *)
Theorem fetch_stops_at_empty_next
  (rs : list response) (rl : response) (rest : list response)
  (client_id : string) (limit : Z) :
  forallb status_ok (rs ++ [rl]) = true ->
  forallb has_next rs = true ->
  next (json rl) = Some "" ->
  fetch_all_records (rs ++ rl :: rest) client_id limit =
  Some (mkRequest gidd_url [("client_id", Str client_id); ("limit", Int limit)]
          :: map (fun r => mkRequest (next_url r) []) rs,
        Ok (flat_map page_results (rs ++ [rl]))).
Proof.
  intros Hok Hnext Hlast. unfold fetch_all_records.
  rewrite fetch_loop_follows_next; auto.
  unfold has_next. now rewrite Hlast.
Qed.

Lemma fetch_stops_at_empty_next_witness :
  fetch_all_records
    [mkResponse 200 (mkPage (Some Examples.gidd_records_1) (Some ""));
     Examples.gidd_page_2] "id" 500
  = Some ([mkRequest gidd_url [("client_id", Str "id"); ("limit", Int 500)]],
          Ok Examples.gidd_records_1).
Proof.
  apply (fetch_stops_at_empty_next []
           (mkResponse 200 (mkPage (Some Examples.gidd_records_1) (Some "")))
           [Examples.gidd_page_2] "id" 500); reflexivity.
Defined.

(* ================================================================== *)
(** * Further properties: what the filters keep *)

Lemma where_col_rows (df df' : DataFrame) (c : string) (test : cell -> bool) :
  where_col df c test = Ok df' ->
  columns df' = columns df
  /\ forall r, In r (values df') ->
               In r (values df) /\ test (cell_at (columns df) c r) = true.
Proof.
  unfold where_col, cell_at.
  destruct (position c (columns df)) as [i|]; [|discriminate].
  intro H. injection H as <-. split; [reflexivity|].
  unfold values; simpl. intros r Hr.
  apply in_map_iff in Hr as [[j r'] [<- Hr]].
  apply filter_In in Hr as [Hin Ht]. split; [|exact Ht].
  now apply (in_map snd) in Hin.
Qed.

(** A guarded filter on column [c]: the rows it returns are rows of its
    input, and they pass the test whenever the guard lets the filter run. *)
Lemma if_truthy_rows {A : Type} (arg : option A) (truthy : A -> bool)
  (df df' : DataFrame) (c : string) (test : A -> cell -> bool) :
  if_truthy arg truthy df (fun v => where_col df c (test v)) = Ok df' ->
  columns df' = columns df
  /\ forall r, In r (values df') ->
       In r (values df)
       /\ forall v, arg = Some v -> truthy v = true ->
                    test v (cell_at (columns df) c r) = true.
Proof.
  unfold if_truthy. destruct arg as [v|].
  - destruct (truthy v) eqn:E.
    + intro H. apply where_col_rows in H as [H1 H2]. split; [exact H1|].
      intros r Hr. destruct (H2 r Hr) as [H3 H4]. split; [exact H3|].
      intros v' Hv' _. now injection Hv' as <-.
    + intro H. injection H as <-. split; [reflexivity|].
      intros r Hr. split; [exact Hr|]. intros v' Hv'. injection Hv' as <-.
      congruence.
  - intro H. injection H as <-. split; [reflexivity|].
    intros r Hr. split; [exact Hr|]. discriminate.
Qed.

Lemma if_not_None_rows {A : Type} (arg : option A)
  (df df' : DataFrame) (c : string) (test : A -> cell -> bool) :
  if_not_None arg df (fun v => where_col df c (test v)) = Ok df' ->
  columns df' = columns df
  /\ forall r, In r (values df') ->
       In r (values df)
       /\ forall v, arg = Some v -> test v (cell_at (columns df) c r) = true.
Proof.
  unfold if_not_None. destruct arg as [v|].
  - intro H. apply where_col_rows in H as [H1 H2]. split; [exact H1|].
    intros r Hr. destruct (H2 r Hr) as [H3 H4]. split; [exact H3|].
    intros v' Hv'. now injection Hv' as <-.
  - intro H. injection H as <-. split; [reflexivity|].
    intros r Hr. split; [exact Hr|]. discriminate.
Qed.

Lemma select_values (df df' : DataFrame) (cs : list string) :
  select df cs = Ok df' ->
  columns df' = cs
  /\ values df'
     = map (fun r => map (fun c => cell_at (columns df) c r) cs) (values df).
Proof.
  unfold select. destruct (first_missing cs (columns df)); [discriminate|].
  intro H. injection H as <-. split; [reflexivity|].
  unfold values; simpl. now rewrite !map_map.
Qed.

Lemma values_reset_index (df : DataFrame) :
  values (reset_index df) = values df.
Proof. unfold reset_index. apply values_range_indexed. Qed.

Lemma year_ge_Int (bound : Z) (c : cell) :
  year_ge bound c = true -> exists y, c = Int y /\ (bound <= y)%Z.
Proof.
  destruct c as [|y|s]; simpl; try discriminate.
  intro H. exists y. split; [reflexivity|now apply Z.leb_le].
Qed.

Lemma year_le_Int (bound : Z) (c : cell) :
  year_le bound c = true -> exists y, c = Int y /\ (y <= bound)%Z.
Proof.
  destruct c as [|y|s]; simpl; try discriminate.
  intro H. exists y. split; [reflexivity|now apply Z.leb_le].
Qed.

Lemma isin_Str (vals : list string) (c : cell) :
  isin vals c = true -> exists s, c = Str s /\ In s vals.
Proof.
  destruct c as [|y|s]; simpl; try discriminate.
  intro H. exists s. split; [reflexivity|now apply mem_In].
Qed.

(** X5: every row that [get_data_IDMC] returns passes the criteria the
    call applies: its first cell is one of the iso3 codes given (compared
    as they are, case included) when [iso3] is a non-empty text or list,
    and its third cell is an integer year within each bound that is given
    and not zero; a row whose year is not a number is dropped by such a
    bound. *)
Theorem get_data_IDMC_rows (to_numeric : string -> option Z)
  (raw df : DataFrame) (indicators : indicator_spec)
  (iso3 : option str_or_list) (start_year end_year : option Z)
  (hazard_category_name hazard_type_name : option string) :
  get_data_IDMC to_numeric raw indicators iso3 start_year end_year
                hazard_category_name hazard_type_name = Ok df ->
  forall r, In r (values df) ->
    (forall v, iso3 = Some v -> truthy_sl v = true ->
               exists s, nth 0 r NA = Str s /\ In s (as_list v))
    /\ (forall b, start_year = Some b -> b <> 0%Z ->
                  exists y, nth 2 r NA = Int y /\ (b <= y)%Z)
    /\ (forall b, end_year = Some b -> b <> 0%Z ->
                  exists y, nth 2 r NA = Int y /\ (y <= b)%Z).
Proof.
  unfold get_data_IDMC. intro H.
  apply bind_Ok in H as [df1 [E1 H]]. apply map_col_Ok in E1 as [K1 _].
  apply bind_Ok in H as [df2 [E2 H]]. apply if_truthy_rows in E2 as [K2 R2].
  apply bind_Ok in H as [df3 [E3 H]]. apply if_truthy_rows in E3 as [K3 R3].
  apply bind_Ok in H as [df4 [E4 H]]. apply if_truthy_rows in E4 as [K4 R4].
  apply bind_Ok in H as [df5 [E5 H]]. apply if_truthy_rows in E5 as [K5 R5].
  apply bind_Ok in H as [df6 [E6 H]]. apply if_truthy_rows in E6 as [K6 R6].
  assert (Hsel : exists rest,
             values df = map (fun r => map (fun c => cell_at (columns df6) c r)
                                           (idmc_base_cols ++ rest))
                             (values df6)).
  { destruct indicators as [| |m]; apply bind_Ok in H as [df7 [E7 H]];
      apply select_values in E7 as [_ E7]; injection H as <-;
      rewrite values_reset_index; eexists; exact E7. }
  destruct Hsel as [rest Hsel]. intros r Hr. rewrite Hsel in Hr.
  apply in_map_iff in Hr as [r6 [<- Hr6]].
  destruct (R6 r6 Hr6) as [Hr5 _]. destruct (R5 r6 Hr5) as [Hr4 _].
  destruct (R4 r6 Hr4) as [Hr3 Hend]. destruct (R3 r6 Hr3) as [Hr2 Hstart].
  destruct (R2 r6 Hr2) as [_ Hiso].
  assert (C2 : columns df2 = columns df1) by congruence.
  assert (C3 : columns df3 = columns df1) by congruence.
  assert (C6 : columns df6 = columns df1) by congruence.
  rewrite C2 in Hstart. rewrite C3 in Hend. rewrite C6. simpl.
  repeat split.
  - intros v Hv Ht. apply isin_Str. now apply Hiso.
  - intros b Hb Hnz. apply year_ge_Int. apply Hstart; auto.
    unfold truthy_int. now apply negb_true_iff, Z.eqb_neq.
  - intros b Hb Hnz. apply year_le_Int. apply Hend; auto.
    unfold truthy_int. now apply negb_true_iff, Z.eqb_neq.
Qed.

Lemma get_data_IDMC_rows_witness :
  (exists s, nth 0 [Str "ALB"; Str "2020-07-12"; Int 2020; Int 45] NA = Str s
             /\ In s ["ALB"])
  /\ (exists y, nth 2 [Str "ALB"; Str "2020-07-12"; Int 2020; Int 45] NA = Int y
                /\ (2016 <= y)%Z).
Proof.
  destruct (get_data_IDMC_rows PyStr.int Examples.idmc_plain
              (mkDF ["iso3"; "start_date"; "year"; "figure"]
                    [(0, [Str "ALB"; Str "2020-07-12"; Int 2020; Int 45])])
              IndNone (Some (One "ALB")) (Some 2016%Z) None None None
              eq_refl [Str "ALB"; Str "2020-07-12"; Int 2020; Int 45]
              (or_introl eq_refl)) as [H1 [H2 _]].
  split.
  - exact (H1 (One "ALB") eq_refl eq_refl).
  - apply (H2 2016%Z eq_refl). discriminate.
Defined.

(* ================================================================== *)
(** * Further properties: the HDI pipeline *)

Lemma reshape_long_HDI_requires (df long : DataFrame)
  (indicators : dict string) :
  reshape_long_HDI df indicators = Ok long ->
  (forall c, In c hdi_id_vars -> In c (columns df))
  /\ rows df <> []
  /\ value_vars_of (columns df) indicators <> []
  /\ (forall v, In v (value_vars_of (columns df) indicators) ->
                PyStr.int (year_suffix v) <> None).
Proof.
  intro H.
  destruct (first_missing hdi_id_vars (columns df)) as [c|] eqn:Eid.
  { rewrite (reshape_long_HDI_missing _ _ _ Eid) in H. discriminate. }
  assert (Hid : forall c, In c hdi_id_vars -> In c (columns df))
    by now apply first_missing_None.
  rewrite (reshape_long_HDI_steps _ _ Hid) in H.
  destruct (list_prod _ _) as [|p0 pairs'] eqn:Ep; [discriminate|].
  assert (Hp0 : In p0 (list_prod (value_vars_of (columns df) indicators)
                                 (values df)))
    by (rewrite Ep; now left).
  destruct p0 as [v0 r0]. apply in_prod_iff in Hp0 as [Hv0 Hr0].
  rewrite <- Ep in H. apply bind_Ok in H as [vals [Ec _]].
  repeat split.
  - exact Hid.
  - intro E. unfold values in Hr0. now rewrite E in Hr0.
  - intro E. now rewrite E in Hv0.
  - intros v Hv Hbad.
    destruct (collect_some_Err
                (fun p => finish_row indicators (melted (columns df) p))
                (list_prod (value_vars_of (columns df) indicators) (values df))
                (v, r0) (InvalidLiteral (year_suffix v))) as [e He].
    + now apply in_prod.
    + rewrite finish_row_melted. now rewrite Hbad.
    + congruence.
Qed.

Lemma reshape_long_HDI_Ok_inv (df long : DataFrame)
  (indicators : dict string) :
  reshape_long_HDI df indicators = Ok long ->
  long = range_indexed long_columns (column_major df indicators).
Proof.
  intro H.
  destruct (reshape_long_HDI_requires _ _ _ H) as [Hid [Hrows [Hvv Hparse]]].
  rewrite (reshape_long_HDI_Ok _ _ Hid Hrows Hvv Hparse) in H.
  now injection H.
Qed.

(** X6: [reshape_long_HDI] returns a table only for a table that has the
    three identity columns, at least one row and at least one selected
    column, all of whose suffixes parse; the table returned then has the
    columns iso3, country, region, value, metric, year, metric_name, the
    default index, and the observations in column-major order. *)
Theorem reshape_long_HDI_returns (df long : DataFrame)
  (indicators : dict string) :
  reshape_long_HDI df indicators = Ok long ->
  (forall c, In c hdi_id_vars -> In c (columns df))
  /\ rows df <> []
  /\ value_vars_of (columns df) indicators <> []
  /\ (forall v, In v (value_vars_of (columns df) indicators) ->
                PyStr.int (year_suffix v) <> None)
  /\ long = range_indexed long_columns (column_major df indicators).
Proof.
  intro H.
  destruct (reshape_long_HDI_requires _ _ _ H) as [Hid [Hrows [Hvv Hparse]]].
  repeat split; auto.
  rewrite (reshape_long_HDI_Ok _ _ Hid Hrows Hvv Hparse) in H.
  now injection H.
Qed.

Lemma reshape_long_HDI_returns_witness :
  rows Examples.hdi_wide <> []
  /\ reshape_long_HDI Examples.hdi_wide Examples.hdi_indicators
     = Ok (range_indexed long_columns
             (column_major Examples.hdi_wide Examples.hdi_indicators)).
Proof.
  destruct (reshape_long_HDI_returns Examples.hdi_wide
              (range_indexed long_columns
                 (column_major Examples.hdi_wide Examples.hdi_indicators))
              Examples.hdi_indicators eq_refl) as [_ [H [_ [_ _]]]].
  split; [exact H|reflexivity].
Defined.

Lemma lower_isin_Str (vals : list string) (c : cell) :
  lower_isin vals c = true -> exists s, c = Str s /\ In (PyStr.lower s) vals.
Proof.
  destruct c as [|y|s]; simpl; try discriminate.
  intro H. exists s. split; [reflexivity|now apply mem_In].
Qed.

(** X7: every row that [get_data_HDI] returns passes all the criteria
    given: its country, in lower case, is one of the countries asked for,
    in lower case; its year is at least [start_year] and at most
    [end_year].  The bounds are tested with [is not None]: a bound of 0
    counts. *)
Theorem get_data_HDI_rows (raw df : DataFrame) (indicators : dict string)
  (countries : option str_or_list) (start_year end_year : option Z) :
  get_data_HDI raw indicators countries start_year end_year = Ok df ->
  columns df = long_columns
  /\ forall r, In r (values df) ->
       (forall v, countries = Some v ->
          exists s, cell_at (columns df) "country" r = Str s
                    /\ In (PyStr.lower s) (map PyStr.lower (as_list v)))
       /\ (forall b, start_year = Some b ->
             exists y, cell_at (columns df) "year" r = Int y /\ (b <= y)%Z)
       /\ (forall b, end_year = Some b ->
             exists y, cell_at (columns df) "year" r = Int y /\ (y <= b)%Z).
Proof.
  unfold get_data_HDI. intro H.
  apply bind_Ok in H as [df0 [E0 H]].
  apply reshape_long_HDI_Ok_inv in E0.
  assert (K0 : columns df0 = long_columns) by now rewrite E0.
  apply bind_Ok in H as [df1 [E1 H]]. apply if_not_None_rows in E1 as [K1 R1].
  apply bind_Ok in H as [df2 [E2 H]]. apply if_not_None_rows in E2 as [K2 R2].
  apply bind_Ok in H as [df3 [E3 H]]. apply if_not_None_rows in E3 as [K3 R3].
  injection H as <-.
  assert (C1 : columns df1 = long_columns) by congruence.
  assert (C2 : columns df2 = long_columns) by congruence.
  assert (C3 : columns df3 = long_columns) by congruence.
  split; [exact C3|].
  rewrite values_reset_index.
  change (columns (reset_index df3)) with (columns df3). rewrite C3.
  rewrite K0 in R1. rewrite C1 in R2. rewrite C2 in R3.
  intros r Hr. destruct (R3 r Hr) as [Hr2 Hend].
  destruct (R2 r Hr2) as [Hr1 Hstart]. destruct (R1 r Hr1) as [_ Hc].
  repeat split.
  - intros v Hv. apply lower_isin_Str. now apply Hc.
  - intros b Hb. apply year_ge_Int. now apply Hstart.
  - intros b Hb. apply year_le_Int. now apply Hend.
Qed.

Lemma get_data_HDI_rows_witness :
  (exists s, Str "Albania" = Str s
             /\ In (PyStr.lower s) (map PyStr.lower ["ALBANIA"]))
  /\ (exists y, Int 2000 = Int y /\ (2000 <= y)%Z).
Proof.
  destruct (get_data_HDI_rows Examples.hdi_wide
              (mkDF long_columns
                 [(0, [Str "ALB"; Str "Albania"; Str "ECA"; Str "0.677";
                       Str "hdi"; Int 2000; Str "Human Development Index"])])
              Examples.hdi_indicators (Some (One "ALBANIA")) (Some 2000%Z)
              (Some 2000%Z)) as [_ H].
  - vm_compute. reflexivity.
  - destruct (H [Str "ALB"; Str "Albania"; Str "ECA"; Str "0.677";
                 Str "hdi"; Int 2000; Str "Human Development Index"]
                (or_introl eq_refl)) as [H1 [H2 _]].
    split; [exact (H1 _ eq_refl)|exact (H2 _ eq_refl)].
Defined.

(** X8: without any filter, [get_data_HDI] is the reshape of the
    normalised table: it returns the table that [reshape_long_HDI] returns
    on it, index included, and raises what the reshape raises. *)
Theorem get_data_HDI_no_filter (raw : DataFrame) (indicators : dict string) :
  get_data_HDI raw indicators None None None
  = reshape_long_HDI (normalize_columns raw) indicators.
Proof.
  unfold get_data_HDI.
  destruct (reshape_long_HDI (normalize_columns raw) indicators)
    as [long|e] eqn:E; [|reflexivity].
  apply reshape_long_HDI_Ok_inv in E as ->.
  simpl. unfold reset_index. now rewrite values_range_indexed.
Qed.

(* ================================================================== *)
(** * Further properties: the World Bank pipeline *)

Lemma if_not_None_In {A : Type} (arg : option A) (v : A)
  (df df' : DataFrame) (c : string) (test : A -> cell -> bool) :
  if_not_None arg df (fun v => where_col df c (test v)) = Ok df' ->
  arg = Some v -> In c (columns df).
Proof.
  intros H ->. simpl in H. now apply where_col_Ok in H.
Qed.

(** The cell of a selected row under a selected label is the cell of the
    row it was taken from. *)
Lemma cell_at_selected (cols cs : list string) (c : string) (r : list cell) :
  In c cs ->
  cell_at cs c (map (fun c' => cell_at cols c' r) cs) = cell_at cols c r.
Proof.
  unfold cell_at at 1. induction cs as [|c0 cs IH]; simpl; [intros []|].
  intro Hin. destruct (String.eqb_spec c0 c) as [->|Hne]; [reflexivity|].
  destruct Hin as [E|Hin]; [congruence|]. specialize (IH Hin).
  destruct (position c cs); simpl; auto.
Qed.

(** X9: every row that [get_data_WB] returns has an integer Year that is
    at least [start_year] and at most [end_year], for each bound given;
    the bounds are tested with [is not None], so a bound of 0 counts. *)
Theorem get_data_WB_year_bounds
  (source : string -> str_or_list -> list wb_record)
  (indicators : dict string) (countries : str_or_list)
  (start_year end_year : option Z) (df : DataFrame) :
  get_data_WB source indicators countries start_year end_year = Ok df ->
  forall r, In r (values df) ->
    (forall b, start_year = Some b ->
       exists y, cell_at (columns df) "Year" r = Int y /\ (b <= y)%Z)
    /\ (forall b, end_year = Some b ->
          exists y, cell_at (columns df) "Year" r = Int y /\ (y <= b)%Z).
Proof.
  unfold get_data_WB. intro H.
  apply bind_Ok in H as [all_data [_ H]].
  apply bind_Ok in H as [df0 [_ H]].
  apply bind_Ok in H as [df1 [E1 H]].
  pose proof (fun b => if_not_None_In _ b _ _ _ _ E1) as In1.
  apply if_not_None_rows in E1 as [K1 R1].
  apply bind_Ok in H as [df2 [E2 H]].
  pose proof (fun b => if_not_None_In _ b _ _ _ _ E2) as In2.
  apply if_not_None_rows in E2 as [K2 R2].
  apply bind_Ok in H as [df3 [E3 H]]. injection H as <-.
  apply select_values in E3 as [K3 V3].
  intros r Hr. rewrite V3 in Hr. apply in_map_iff in Hr as [r2 [<- Hr2]].
  destruct (R2 r2 Hr2) as [Hr1 Hend]. destruct (R1 r2 Hr1) as [_ Hstart].
  assert (Hyear : forall b : Z, start_year = Some b \/ end_year = Some b ->
            In "Year" (filter (fun c => mem c (columns df2))
                              (wb_keys ++ map snd indicators))).
  { intros b Hb. apply (proj2 (filter_In _ _ _)). split; [simpl; tauto|].
    apply mem_In. destruct Hb as [Hb|Hb].
    - rewrite K2, K1. exact (In1 b Hb).
    - rewrite K2. exact (In2 b Hb). }
  rewrite K3. split.
  - intros b Hb. rewrite cell_at_selected by (apply (Hyear b); now left).
    apply year_ge_Int. rewrite K2, K1. now apply Hstart.
  - intros b Hb. rewrite cell_at_selected by (apply (Hyear b); now right).
    apply year_le_Int. rewrite K2. now apply Hend.
Qed.

Lemma get_data_WB_year_bounds_witness :
  (exists y, Int 2011 = Int y /\ (2011 <= y)%Z)
  /\ (exists y, Int 2011 = Int y /\ (y <= 2011)%Z).
Proof.
  destruct (get_data_WB_year_bounds Examples.wb_source
              [("A", "GDP"); ("B", "Pop")] (One "all")
              (Some 2011%Z) (Some 2011%Z)
              (mkDF ["Country"; "ISO3"; "Year"; "GDP"; "Pop"]
                    [(1, [Str "Chad"; Str "TCD"; Int 2011; Int 12; Int 7])])
              eq_refl [Str "Chad"; Str "TCD"; Int 2011; Int 12; Int 7]
              (or_introl eq_refl)) as [H1 H2].
  split; [exact (H1 _ eq_refl)|exact (H2 _ eq_refl)].
Defined.

(** X10: with no indicator at all, [get_data_WB] fetches nothing and
    returns the empty table with the columns Country, ISO3, Year, whatever
    the source, the countries and the year bounds. *)
Theorem get_data_WB_no_indicator
  (source : string -> str_or_list -> list wb_record)
  (countries : str_or_list) (start_year end_year : option Z) :
  get_data_WB source [] countries start_year end_year
  = Ok (mkDF ["Country"; "ISO3"; "Year"] []).
Proof. destruct start_year, end_year; reflexivity. Qed.

Lemma wb_row_Err (name : string) (rec : wb_record) (e : error) :
  wb_row name rec = Err e ->
  e = InvalidLiteral (date rec) /\ PyStr.int (date rec) = None.
Proof.
  unfold wb_row. destruct (PyStr.int (date rec)); [discriminate|].
  intro H. injection H as <-. now split.
Qed.

(** X11: a record whose date is not an integer makes [get_data_WB] fail
    with the parse error of such a date, whatever the other records and
    indicators are: no table is returned. *)
Theorem get_data_WB_bad_date
  (source : string -> str_or_list -> list wb_record)
  (indicators : dict string) (countries : str_or_list)
  (start_year end_year : option Z) (code name : string) (rec : wb_record) :
  In (code, name) indicators ->
  In rec (source code countries) ->
  PyStr.int (date rec) = None ->
  exists code' name' rec',
    In (code', name') indicators
    /\ In rec' (source code' countries)
    /\ PyStr.int (date rec') = None
    /\ get_data_WB source indicators countries start_year end_year
       = Err (InvalidLiteral (date rec')).
Proof.
  intros Hkv Hrec Hbad. unfold get_data_WB.
  set (frame := fun kv : string * string =>
                  rows <- collect (wb_row (snd kv)) (source (fst kv) countries) ;;
                  Ok (frame_of_records rows)).
  assert (Hf : exists e, frame (code, name) = Err e).
  { unfold frame. simpl.
    destruct (collect_some_Err (wb_row name) (source code countries) rec
                (InvalidLiteral (date rec)) Hrec) as [e He].
    - unfold wb_row. now rewrite Hbad.
    - exists e. now rewrite He. }
  destruct Hf as [e0 Hf].
  destruct (collect_some_Err frame indicators (code, name) e0 Hkv Hf)
    as [e He].
  change (collect _ indicators) with (collect frame indicators).
  rewrite He. simpl.
  apply collect_Err in He as [[code' name'] [Hkv' He]].
  unfold frame in He. simpl in He.
  apply bind_Err in He as [He|[rows [_ He]]]; [|discriminate].
  apply collect_Err in He as [rec' [Hrec' He]].
  apply wb_row_Err in He as [-> Hbad'].
  now exists code', name', rec'.
Qed.

Lemma get_data_WB_bad_date_witness :
  exists code' name' rec',
    In (code', name') [("A", "GDP")]
    /\ In rec' [Examples.chad "2010" 11; Examples.chad "n/a" 12]
    /\ PyStr.int (date rec') = None
    /\ get_data_WB (fun _ _ => [Examples.chad "2010" 11; Examples.chad "n/a" 12])
                   [("A", "GDP")] (One "all") None None
       = Err (InvalidLiteral (date rec')).
Proof.
  apply (get_data_WB_bad_date
           (fun _ _ => [Examples.chad "2010" 11; Examples.chad "n/a" 12])
           [("A", "GDP")] (One "all") None None "A" "GDP"
           (Examples.chad "n/a" 12)).
  - simpl. tauto.
  - simpl. tauto.
  - reflexivity.
Defined.

(** X12: for a single indicator whose display name is none of Country,
    ISO3, Year and whose fetch returns at least one record, every date an
    integer, [get_data_WB] returns one row per record of the fetch, in
    fetch order, restricted to the years within the bounds: the country
    name, the ISO3 code (the country id when the record has no
    [countryiso3code]), the year as an integer and the value (missing when
    the record has none), under the columns Country, ISO3, Year and the
    display name. *)
Theorem get_data_WB_single_indicator
  (source : string -> str_or_list -> list wb_record)
  (code name : string) (countries : str_or_list)
  (start_year end_year : option Z) :
  ~ In name wb_keys ->
  source code countries <> [] ->
  (forall rec, In rec (source code countries) ->
               PyStr.int (date rec) <> None) ->
  exists df,
    get_data_WB source [(code, name)] countries start_year end_year = Ok df
    /\ columns df = ["Country"; "ISO3"; "Year"; name]
    /\ values df
       = filter (within start_year end_year)
                (map (fun rec => wb_key rec ++ [wb_value rec])
                     (source code countries)).
Proof.
  intros Hname Hne Hdate.
  set (rs := filter (fun r => within start_year end_year (snd r))
                    (rows (range_indexed (wb_keys ++ [name])
                                         (wb_table (source code countries))))).
  exists (mkDF (wb_keys ++ [name]) rs). split; [|split].
  - unfold get_data_WB. cbn [collect fst snd].
    rewrite (wb_frame name (source code countries) Hname Hne Hdate).
    cbn [bind]. unfold merge_all. cbn [fold_left bind].
    pose proof (year_filters [name]
                  (rows (range_indexed (wb_keys ++ [name])
                                       (wb_table (source code countries))))
                  start_year end_year) as Hy.
    fold rs in Hy.
    change (mkDF (wb_keys ++ [name])
                 (rows (range_indexed (wb_keys ++ [name])
                                      (wb_table (source code countries)))))
      with (range_indexed (wb_keys ++ [name])
                          (wb_table (source code countries))) in Hy.
    match goal with
    | |- bind ?A (fun df => bind (@?B df) ?K) = _ =>
        rewrite <- (bind_bind A B K)
    end.
    rewrite Hy. cbn [bind].
    change (columns (mkDF (wb_keys ++ [name]) rs)) with (wb_keys ++ [name]).
    rewrite select_merged; [reflexivity| |].
    + apply NoDup_app.
      * unfold wb_keys. repeat constructor; simpl; intuition discriminate.
      * repeat constructor. intros [].
      * intros c Hc [<-|[]]. contradiction.
    + intros r Hr. unfold rs in Hr. apply filter_In in Hr as [Hr _].
      unfold range_indexed in Hr. simpl in Hr.
      apply (in_map snd) in Hr. rewrite snd_combine_seq in Hr.
      now rewrite (wb_table_length _ _ Hr).
  - reflexivity.
  - unfold values, rs. cbn [rows]. rewrite map_snd_filter.
    unfold range_indexed. cbn [rows]. now rewrite snd_combine_seq.
Qed.

Lemma get_data_WB_single_indicator_witness :
  exists df,
    get_data_WB Examples.wb_source [("A", "GDP")] (One "all") (Some 2011%Z) None
    = Ok df
    /\ columns df = ["Country"; "ISO3"; "Year"; "GDP"]
    /\ values df = [[Str "Chad"; Str "TCD"; Int 2011; Int 12]].
Proof.
  destruct (get_data_WB_single_indicator Examples.wb_source "A" "GDP"
              (One "all") (Some 2011%Z) None) as [df [H1 [H2 H3]]].
  - simpl. intuition discriminate.
  - discriminate.
  - simpl. intros rec [<-|[<-|[]]]; discriminate.
  - exists df. split; [exact H1|]. split; [exact H2|]. exact H3.
Defined.

(* ================================================================== *)
(** * Further properties: columns and failures of IDMC and GIDD *)





Lemma where_col_present (df : DataFrame) (c : string) (test : cell -> bool) :
  In c (columns df) ->
  exists df', where_col df c test = Ok df' /\ columns df' = columns df.
Proof.
  intro H. unfold where_col.
  destruct (position c (columns df)) eqn:E.
  - eexists. split; reflexivity.
  - apply position_None in E. contradiction.
Qed.

Lemma if_truthy_present {A : Type} (arg : option A) (truthy : A -> bool)
  (df : DataFrame) (c : string) (test : A -> cell -> bool) :
  (forall c', In c' (named_if arg truthy c) -> In c' (columns df)) ->
  exists df', if_truthy arg truthy df (fun v => where_col df c (test v)) = Ok df'
              /\ columns df' = columns df.
Proof.
  unfold if_truthy, named_if. intro H. destruct arg as [v|].
  - destruct (truthy v).
    + apply where_col_present. apply H. now left.
    + now exists df.
  - now exists df.
Qed.

(** X14: [get_data_IDMC] raises no KeyError when the normalised file has
    the base columns iso3, start_date, year, the column of each hazard
    filter given as a non-empty text, and the indicator keys: a filter that
    matches no row and a year that is not a number are no missing column. *)
Theorem get_data_IDMC_no_KeyError (to_numeric : string -> option Z)
  (raw : DataFrame) (indicators : indicator_spec)
  (iso3 : option str_or_list) (start_year end_year : option Z)
  (hazard_category_name hazard_type_name : option string)
  (label : string) :
  (forall c', In c' (idmc_base_cols
                     ++ idmc_named_columns indicators iso3 start_year end_year
                          hazard_category_name hazard_type_name) ->
              In c' (columns (normalize_columns raw))) ->
  get_data_IDMC to_numeric raw indicators iso3 start_year end_year
                hazard_category_name hazard_type_name <> Err (KeyError label).
Proof.
  intro Hall.
  assert (Hruns : exists df,
             get_data_IDMC to_numeric raw indicators iso3 start_year end_year
                           hazard_category_name hazard_type_name = Ok df).
  {
    unfold get_data_IDMC.
    set (df0 := normalize_columns raw) in *.
    assert (Hbase : forall c, In c idmc_base_cols -> In c (columns df0)).
    { intros c Hc. apply Hall. apply in_app_iff. now left. }
    assert (Hnamed : forall c,
               In c (idmc_named_columns indicators iso3 start_year end_year
                       hazard_category_name hazard_type_name) ->
               In c (columns df0)).
    { intros c Hc. apply Hall. apply in_app_iff. now right. }
    unfold idmc_named_columns in Hnamed.
    assert (Hyear : In "year" (columns df0)) by (apply Hbase; simpl; tauto).
    assert (Hiso : In "iso3" (columns df0)) by (apply Hbase; simpl; tauto).
    destruct (position "year" (columns df0)) as [i|] eqn:Ey;
      [|apply position_None in Ey; contradiction].
    unfold map_col. rewrite Ey. cbn [bind].
    set (df1 := mkDF _ _).
    assert (K1 : columns df1 = columns df0) by reflexivity.
    destruct (if_truthy_present iso3 truthy_sl df1 "iso3"
                (fun v => isin (as_list v))) as [df2 [E2 K2]].
    { intros c Hc. apply named_if_given in Hc as ->. now rewrite K1. }
    rewrite E2. cbn [bind].
    destruct (if_truthy_present start_year truthy_int df2 "year" year_ge)
      as [df3 [E3 K3]].
    { intros c Hc. apply named_if_given in Hc as ->. now rewrite K2, K1. }
    rewrite E3. cbn [bind].
    destruct (if_truthy_present end_year truthy_int df3 "year" year_le)
      as [df4 [E4 K4]].
    { intros c Hc. apply named_if_given in Hc as ->. now rewrite K3, K2, K1. }
    rewrite E4. cbn [bind].
    destruct (if_truthy_present hazard_category_name truthy_str df4
                "hazard_category_name" lower_eq) as [df5 [E5 K5]].
    { intros c Hc. rewrite K4, K3, K2, K1. apply Hnamed.
      rewrite !in_app_iff. tauto. }
    rewrite E5. cbn [bind].
    destruct (if_truthy_present hazard_type_name truthy_str df5
                "hazard_type_name" lower_eq) as [df6 [E6 K6]].
    { intros c Hc. rewrite K5, K4, K3, K2, K1. apply Hnamed.
      rewrite !in_app_iff. tauto. }
    rewrite E6. cbn [bind].
    assert (K : columns df6 = columns df0) by congruence.
    assert (Hsel : forall cs, (forall c, In c cs -> In c (columns df0)) ->
                              exists df', select df6 cs = Ok df').
    { intros cs Hcs. unfold select.
      replace (first_missing cs (columns df6)) with (@None string).
      - eexists. reflexivity.
      - symmetry. apply first_missing_None. intros c Hc. rewrite K. auto. }
    destruct indicators as [| |m].
    - destruct (Hsel (idmc_base_cols
                      ++ filter (fun c => negb (mem c idmc_base_cols))
                                (columns df6))) as [df7 E7].
      { intros c Hc. apply in_app_iff in Hc as [Hc|Hc]; [auto|].
        apply filter_In in Hc as [Hc _]. now rewrite <- K. }
      rewrite E7. eexists. reflexivity.
    - destruct (Hsel (idmc_base_cols
                      ++ filter (fun c => negb (mem c idmc_base_cols))
                                (columns df6))) as [df7 E7].
      { intros c Hc. apply in_app_iff in Hc as [Hc|Hc]; [auto|].
        apply filter_In in Hc as [Hc _]. now rewrite <- K. }
      rewrite E7. eexists. reflexivity.
    - destruct (Hsel (idmc_base_cols ++ keys m)) as [df7 E7].
      { intros c Hc. apply in_app_iff in Hc as [Hc|Hc]; [auto|].
        apply Hnamed. rewrite !in_app_iff. simpl. tauto. }
      rewrite E7. eexists. reflexivity.
  }
  destruct Hruns as [df E]. rewrite E. discriminate.
Qed.

Lemma get_data_IDMC_no_KeyError_witness :
  In "figure" (columns (normalize_columns Examples.idmc_plain))
  /\ get_data_IDMC PyStr.int Examples.idmc_plain
                   (IndMap [("figure", "Displacements")])
                   (Some (One "ZZZ")) (Some 1900%Z) None (Some "") None
     <> Err (KeyError "figure").
Proof.
  split; [simpl; tauto|].
  apply get_data_IDMC_no_KeyError.
  simpl. intuition (subst; simpl; tauto).
Defined.

(* ================================================================== *)
(** * Further properties: how the filters read their arguments *)







Lemma strip_strip (s : string) : PyStr.strip (PyStr.strip s) = PyStr.strip s.
Proof.
  unfold PyStr.strip.
  rewrite (lstrip_fixed (PyStr.rstrip (PyStr.lstrip s))).
  - apply rstrip_fixed, rstrip_ends_clean.
  - apply rstrip_starts_clean, lstrip_starts_clean.
Qed.

(** X16: [get_data_GIDD] reads an iso3 argument other than "all" as a list
    of codes without their surrounding white space: a text or a list gives
    the result of the list of its stripped codes. *)
Theorem get_data_GIDD_strips_iso3 (to_numeric : string -> option Z)
  (range_columns : bool)
  (script : list response) (client_id : string) (limit : Z)
  (v : str_or_list) (start_year end_year : option Z)
  (hazard_category_name hazard_type_name : option string)
  (indicators : indicator_spec) :
  is_all v = false ->
  get_data_GIDD to_numeric range_columns script client_id limit (Some v) start_year end_year
                hazard_category_name hazard_type_name indicators
  = get_data_GIDD to_numeric range_columns script client_id limit
                  (Some (Many (map PyStr.strip (as_list v))))
                  start_year end_year
                  hazard_category_name hazard_type_name indicators.
Proof.
  intro Hv. unfold get_data_GIDD.
  destruct (fetch_all_records script client_id limit) as [[sent [recs|e]]|];
    [|reflexivity|reflexivity].
  do 2 f_equal. unfold gidd_table. rewrite Hv. cbn [is_all as_list].
  rewrite map_map.
  now rewrite (map_ext _ _ (fun s => strip_strip s)).
Qed.

Lemma get_data_GIDD_strips_iso3_witness :
  get_data_GIDD PyStr.int true [Examples.gidd_page_2] "id" 500%Z
                (Some (One " ALB ")) None None None None IndNone
  = get_data_GIDD PyStr.int true [Examples.gidd_page_2] "id" 500%Z
                  (Some (Many (map PyStr.strip (as_list (One " ALB ")))))
                  None None None None IndNone.
Proof.
  apply get_data_GIDD_strips_iso3. reflexivity.
Defined.

Lemma rsplit_underscore_Some (s h t : string) :
  PyStr.rsplit_underscore s = Some (h, t) ->
  s = (h ++ String "_" t)%string /\ PyStr.rsplit_underscore t = None.
Proof.
  revert h t. induction s as [|c s IH]; simpl; intros h t H; [discriminate|].
  destruct (PyStr.rsplit_underscore s) as [[h0 t0]|] eqn:E.
  - injection H as <- <-. destruct (IH h0 t0 eq_refl) as [-> Ht].
    split; [reflexivity|exact Ht].
  - destruct (Ascii.eqb_spec c "_"%char) as [->|Hne]; [|discriminate].
    injection H as <- <-. split; [reflexivity|exact E].
Qed.

(** X17: every column that [reshape_long_HDI] selects is its metric, an
    underscore and its year text, and the year text holds no underscore:
    the label is cut at its last underscore. *)
Theorem value_var_cut_at_last_underscore (cols : list string)
  (indicators : dict string) (v : string) :
  In v (value_vars_of cols indicators) ->
  v = (metric_of v ++ String "_" (year_suffix v))%string
  /\ forall p q, year_suffix v <> (p ++ String "_" q)%string.
Proof.
  intro H. destruct (value_var_splits cols indicators v H) as [h [t E]].
  unfold metric_of, year_suffix. rewrite E.
  destruct (rsplit_underscore_Some v h t E) as [Hv Ht].
  split; [exact Hv|]. now apply rsplit_underscore_None.
Qed.

Lemma value_var_cut_at_last_underscore_witness :
  "gii_rank_2019"
  = (metric_of "gii_rank_2019" ++ String "_" (year_suffix "gii_rank_2019"))%string
  /\ forall p q, year_suffix "gii_rank_2019" <> (p ++ String "_" q)%string.
Proof.
  apply (value_var_cut_at_last_underscore
           ["iso3"; "country"; "gii_rank_2019"; "hdi_1990"]
           [("gii", "Gender Inequality Index")]).
  simpl. now left.
Defined.

(** X18: every table that [get_data_HDI], [get_data_IDMC] or
    [get_data_GIDD] returns has the index 0, 1, ..., n-1, whatever rows the
    filters removed. *)
Theorem returned_index_is_dense (to_numeric : string -> option Z)
  (range_columns : bool)
  (raw df : DataFrame) (hdi_indicators : dict string)
  (countries : option str_or_list)
  (script : list response) (client_id : string) (limit : Z)
  (sent : list request)
  (indicators : indicator_spec) (iso3 : option str_or_list)
  (start_year end_year : option Z)
  (hazard_category_name hazard_type_name : option string) :
  get_data_HDI raw hdi_indicators countries start_year end_year = Ok df
  \/ get_data_IDMC to_numeric raw indicators iso3 start_year end_year
                   hazard_category_name hazard_type_name = Ok df
  \/ get_data_GIDD to_numeric range_columns script client_id limit iso3 start_year end_year
                   hazard_category_name hazard_type_name indicators
     = Some (sent, Ok df) ->
  dense_index df.
Proof.
  intros [H|[H|H]].
  - exact (get_data_HDI_dense _ _ _ _ _ _ H).
  - exact (get_data_IDMC_dense _ _ _ _ _ _ _ _ _ H).
  - unfold get_data_GIDD in H.
    destruct (fetch_all_records script client_id limit) as [[s [recs|e]]|];
      try discriminate.
    injection H as _ H.
    exact (gidd_table_dense _ _ _ _ _ _ _ _ _ _ H).
Qed.

Lemma returned_index_is_dense_witness :
  dense_index (mkDF ["iso3"; "start_date"; "year"; "figure"]
                    [(0, [Str "ALB"; Str "2020-07-12"; Int 2020; Int 45])]).
Proof.
  apply (returned_index_is_dense PyStr.int true Examples.idmc_plain _ [] None
           [] "" 0%Z [] IndNone None (Some 2016%Z) None None None).
  right. left. reflexivity.
Defined.

(* ================================================================== *)
(** * Further properties: calls without criteria *)

Lemma if_truthy_skipped {A : Type} (arg : option A) (truthy : A -> bool)
  (df : DataFrame) (f : A -> result DataFrame) :
  (forall v, arg = Some v -> truthy v = false) ->
  if_truthy arg truthy df f = Ok df.
Proof.
  intro H. unfold if_truthy. destruct arg as [v|]; [|reflexivity].
  now rewrite (H v eq_refl).
Qed.

(** X19: [get_data_GIDD] called without any effective criterion (iso3 absent
    or "all", year bounds absent or 0, hazard names absent or empty,
    indicators absent or "all") returns one row per fetched record, in
    fetch order, under the normalised labels; only the year cell of a row
    is rewritten, by the numeric coercion. *)
Theorem get_data_GIDD_no_criteria (to_numeric : string -> option Z)
  (range_columns : bool)
  (script : list response) (client_id : string) (limit : Z)
  (sent : list request) (all_records : list record) (df : DataFrame)
  (iso3 : option str_or_list) (start_year end_year : option Z)
  (hazard_category_name hazard_type_name : option string)
  (indicators : indicator_spec) :
  fetch_all_records script client_id limit = Some (sent, Ok all_records) ->
  (forall v, iso3 = Some v -> is_all v = true) ->
  (forall y, start_year = Some y -> y = 0%Z) ->
  (forall y, end_year = Some y -> y = 0%Z) ->
  (forall h, hazard_category_name = Some h -> h = "") ->
  (forall h, hazard_type_name = Some h -> h = "") ->
  (forall m, indicators <> IndMap m) ->
  get_data_GIDD to_numeric range_columns script client_id limit iso3
                start_year end_year hazard_category_name hazard_type_name
                indicators
  = Some (sent, Ok df) ->
  columns df = map normalize_name (columns (frame_of_records all_records))
  /\ exists i,
       position "year" (columns df) = Some i
       /\ values df
          = map (update_nth i (to_Int64 to_numeric))
                (values (frame_of_records all_records)).
Proof.
  intros Hf Hiso Hs He Hc Ht Hind H.
  unfold get_data_GIDD in H. rewrite Hf in H. injection H as H.
  unfold gidd_table in H.
  destruct (range_labelled range_columns all_records); [discriminate|].
  cbn [bind] in H.
  set (df0 := normalize_columns (frame_of_records all_records)) in H.
  unfold map_col in H.
  destruct (position "year" (columns df0)) as [i|] eqn:Ey; [|discriminate].
  cbn [bind] in H.
  set (df1 := mkDF _ _) in H.
  assert (E2 : match iso3 with
               | Some v => if is_all v then Ok df1
                           else where_col df1 "iso3"
                                  (isin (map PyStr.strip (as_list v)))
               | None => Ok df1
               end = Ok df1).
  { destruct iso3 as [v|]; [|reflexivity]. now rewrite (Hiso v eq_refl). }
  rewrite E2 in H. cbn [bind] in H.
  rewrite if_truthy_skipped in H
    by (intros y E; rewrite (Hs y E); reflexivity).
  cbn [bind] in H.
  rewrite if_truthy_skipped in H
    by (intros y E; rewrite (He y E); reflexivity).
  cbn [bind] in H.
  rewrite if_truthy_skipped in H
    by (intros h E; rewrite (Hc h E); reflexivity).
  cbn [bind] in H.
  rewrite if_truthy_skipped in H
    by (intros h E; rewrite (Ht h E); reflexivity).
  cbn [bind] in H.
  assert (E : df = reset_index df1).
  { destruct indicators as [| |m]; [congruence|congruence|].
    exfalso. exact (Hind m eq_refl). }
  subst df. split; [reflexivity|]. exists i. split; [exact Ey|].
  rewrite values_reset_index. unfold values, df1, df0. cbn [rows].
  unfold normalize_columns. cbn [rows]. now rewrite !map_map.
Qed.

Lemma get_data_GIDD_no_criteria_witness :
  exists df,
    get_data_GIDD PyStr.int true [Examples.gidd_page_1; Examples.gidd_page_2]
                  "id" 500%Z (Some (One "all")) (Some 0%Z) None (Some "")
                  None IndAll
    = Some ([mkRequest gidd_url [("client_id", Str "id"); ("limit", Int 500%Z)];
             mkRequest "https://example.org/p2" []], Ok df)
    /\ columns df
       = map normalize_name
             (columns (frame_of_records
                         (Examples.gidd_records_1 ++ Examples.gidd_records_2)))
    /\ exists i,
         position "year" (columns df) = Some i
         /\ values df
            = map (update_nth i (to_Int64 PyStr.int))
                  (values (frame_of_records
                             (Examples.gidd_records_1 ++ Examples.gidd_records_2))).
Proof.
  eexists. split; [reflexivity|].
  apply (get_data_GIDD_no_criteria PyStr.int true
           [Examples.gidd_page_1; Examples.gidd_page_2] "id" 500%Z
           [mkRequest gidd_url [("client_id", Str "id"); ("limit", Int 500%Z)];
            mkRequest "https://example.org/p2" []]
           (Examples.gidd_records_1 ++ Examples.gidd_records_2) _
           (Some (One "all")) (Some 0%Z) None (Some "") None IndAll);
    try reflexivity; try discriminate;
    intros x E; injection E as <-; reflexivity.
Defined.

Lemma base_then_rest (cols : list string) :
  NoDup cols ->
  (forall c, In c idmc_base_cols -> In c cols) ->
  Permutation (idmc_base_cols
               ++ filter (fun c => negb (mem c idmc_base_cols)) cols)
              cols.
Proof.
  intros Hnd Hbase. apply NoDup_Permutation; [|exact Hnd|].
  - assert (Hrest : NoDup (filter (fun c => negb (mem c idmc_base_cols)) cols))
      by now apply NoDup_filter.
    assert (Hout : forall c, In c idmc_base_cols ->
                     ~ In c (filter (fun c => negb (mem c idmc_base_cols)) cols)).
    { intros c Hc Hin. apply filter_In in Hin as [_ Hin].
      apply mem_In in Hc. rewrite Hc in Hin. discriminate. }
    unfold idmc_base_cols in *. cbn [app].
    repeat apply NoDup_cons; try exact Hrest.
    + intros [E|[E|Hin]]; try discriminate E.
      apply (Hout "iso3"); simpl; tauto.
    + intros [E|Hin]; try discriminate E.
      apply (Hout "start_date"); simpl; tauto.
    + apply (Hout "year"); simpl; tauto.
  - intro c. rewrite in_app_iff, filter_In. split.
    + intros [Hc|[Hc _]]; auto.
    + intro Hc. destruct (mem c idmc_base_cols) eqn:E.
      * left. now apply mem_In.
      * right. split; [exact Hc|reflexivity].
Qed.

(** X20: called with indicators absent or "all" on a file whose normalised
    labels are pairwise distinct, [get_data_IDMC] returns every column of
    the file once: iso3, start_date and year first, then the others. *)
Theorem get_data_IDMC_keeps_all_columns (to_numeric : string -> option Z)
  (raw df : DataFrame) (indicators : indicator_spec)
  (iso3 : option str_or_list) (start_year end_year : option Z)
  (hazard_category_name hazard_type_name : option string) :
  (forall m, indicators <> IndMap m) ->
  NoDup (columns (normalize_columns raw)) ->
  get_data_IDMC to_numeric raw indicators iso3 start_year end_year
                hazard_category_name hazard_type_name = Ok df ->
  firstn 3 (columns df) = idmc_base_cols
  /\ Permutation (columns df) (columns (normalize_columns raw)).
Proof.
  intros Hind Hnd H. unfold get_data_IDMC in H.
  apply bind_Ok in H as [df1 [E1 H]]. apply map_col_Ok in E1 as [K1 _].
  apply bind_Ok in H as [df2 [E2 H]]. apply if_truthy_Ok in E2 as [K2 _].
  apply bind_Ok in H as [df3 [E3 H]]. apply if_truthy_Ok in E3 as [K3 _].
  apply bind_Ok in H as [df4 [E4 H]]. apply if_truthy_Ok in E4 as [K4 _].
  apply bind_Ok in H as [df5 [E5 H]]. apply if_truthy_Ok in E5 as [K5 _].
  apply bind_Ok in H as [df6 [E6 H]]. apply if_truthy_Ok in E6 as [K6 _].
  assert (K : columns df6 = columns (normalize_columns raw)) by congruence.
  assert (H' : exists df7,
             select df6 (idmc_base_cols
                         ++ filter (fun c => negb (mem c idmc_base_cols))
                                   (columns df6)) = Ok df7
             /\ df = reset_index df7).
  { destruct indicators as [| |m]; [| |exfalso; exact (Hind m eq_refl)];
      apply bind_Ok in H as [df7 [E7 H]]; exists df7; split; congruence. }
  destruct H' as [df7 [E7 ->]].
  pose proof (select_Ok _ _ _ E7) as Hsel.
  apply select_values in E7 as [K7 _].
  unfold reset_index, range_indexed. cbn [columns]. rewrite K7. split.
  - reflexivity.
  - rewrite K. apply base_then_rest; [exact Hnd|].
    intros c Hc. rewrite <- K. apply Hsel. apply in_app_iff. now left.
Qed.

Lemma get_data_IDMC_keeps_all_columns_witness :
  firstn 3 ["iso3"; "start_date"; "year"; "figure"] = idmc_base_cols
  /\ Permutation ["iso3"; "start_date"; "year"; "figure"]
                 (columns (normalize_columns Examples.idmc_plain)).
Proof.
  apply (get_data_IDMC_keeps_all_columns PyStr.int Examples.idmc_plain
           (mkDF ["iso3"; "start_date"; "year"; "figure"]
                 [(0, [Str "ALB"; Str "2020-07-12"; Int 2020; Int 45])])
           IndAll None (Some 2016%Z) None None None).
  - discriminate.
  - repeat (apply NoDup_cons; [simpl; intuition discriminate|]).
    apply NoDup_nil.
  - reflexivity.
Defined.
